(** * restore_lamp.py: restoring saved object transforms

    A shallow embedding of [restore_assembled_state] (src/restore_lamp.py)
    and the properties of it that the specification states.

    The script talks to three collaborators: the file system ([os.path.exists],
    [open]), the JSON decoder ([json.load]) and the host application's object
    registry ([bpy.data.objects]).  They are modelled as an explicit world that
    the script's commands read and update, in a state-and-exception monad. *)

From stdpp Require Import gmap strings list fin_maps.

#[local] Set Warnings "-register-all,-clear-no-such-hyp".

(** ** Values *)

(** A JSON document as written in the file: the members of an object are kept
    in document order, repeated names included. *)
Inductive json (num : Type) : Type :=
| JNull
| JBool (b : bool)
| JNumber (x : num)
| JString (s : string)
| JArray (items : list (json num))
| JObject (members : list (string * json num)).

Arguments JNull {num}.
Arguments JBool {num} b.
Arguments JNumber {num} x.
Arguments JString {num} s.
Arguments JArray {num} items.
Arguments JObject {num} members.

(** The Python values [json.load] builds from it.  A [dict] is its list of
    items in insertion order; [dict_setitem] below keeps the keys distinct. *)
Inductive pyval (num : Type) : Type :=
| PyNone
| PyBool (b : bool)
| PyNum (x : num)
| PyStr (s : string)
| PyList (items : list (pyval num))
| PyDict (items : list (string * pyval num)).

Arguments PyNone {num}.
Arguments PyBool {num} b.
Arguments PyNum {num} x.
Arguments PyStr {num} s.
Arguments PyList {num} items.
Arguments PyDict {num} items.

(** The exceptions the script can let escape. *)
Inductive exn : Type :=
| FileNotFoundError
| IsADirectoryError
| JSONDecodeError
| AttributeError
| KeyError (key : string)
| TypeError
| ValueError.

(** How a call ends: it returns a value or raises. *)
Inductive outcome (A : Type) : Type :=
| Returned (a : A)
| Raised (e : exn).

Arguments Returned {A} a.
Arguments Raised {A} e.

(** What [state_path] may name on disk. *)
Inductive fs_node : Type :=
| RegularFile (text : string)
| Directory.

(** The three transform attributes the script assigns. *)
Inductive field : Type := Location | RotationEuler | Scale.

(** ** Python dictionaries *)

(** [d[k] = v]: an existing key keeps its place and gets the new value, a new
    key goes last. *)
Fixpoint dict_setitem {V : Type} (d : list (string * V)) (k : string) (v : V)
  : list (string * V) :=
  match d with
  | [] => [(k, v)]
  | (k', v') :: d' =>
      if decide (k' = k) then (k', v) :: d' else (k', v') :: dict_setitem d' k v
  end.

(** [d.get(k)]. *)
Fixpoint dict_get {V : Type} (d : list (string * V)) (k : string) : option V :=
  match d with
  | [] => None
  | (k', v) :: d' => if decide (k' = k) then Some v else dict_get d' k
  end.

(** [dict(pairs)]: the pairs are stored one after the other. *)
Definition dict_of_pairs {V : Type} (pairs : list (string * V)) : list (string * V) :=
  fold_left (fun d kv => dict_setitem d kv.1 kv.2) pairs [].

(** The value [json.load] returns for a decoded document. *)
Fixpoint to_py {num : Type} (j : json num) : pyval num :=
  match j with
  | JNull => PyNone
  | JBool b => PyBool b
  | JNumber x => PyNum x
  | JString s => PyStr s
  | JArray items => PyList (map to_py items)
  | JObject members =>
      PyDict (dict_of_pairs (map (fun m => (m.1, to_py m.2)) members))
  end.

Section restore_lamp.

(** The script never computes with the numbers of the state file: it hands
    them from the decoder to the host.  The development is therefore
    parametric in their type. *)
Context {num : Type}.

(** What the host keeps in a scene object besides the three transforms. *)
Context {HostData : Type}.

(** The JSON grammar, as a decoder from the file's text; [None] is a
    document that is not well-formed. *)
Variable json_decode : string -> option (json num).

Definition vec3 : Type := num * num * num.

Record SceneObject : Type := mkSceneObject {
  location : vec3;
  rotation_euler : vec3;
  scale : vec3;
  host_data : HostData
}.

Definition set_field (f : field) (v : vec3) (o : SceneObject) : SceneObject :=
  match f with
  | Location => mkSceneObject v (rotation_euler o) (scale o) (host_data o)
  | RotationEuler => mkSceneObject (location o) v (scale o) (host_data o)
  | Scale => mkSceneObject (location o) (rotation_euler o) v (host_data o)
  end.

(** The world the script runs in: the file system, the host's object registry
    [bpy.data.objects] keyed by object name, and the console. *)
Record World : Type := mkWorld {
  fs : gmap string fs_node;
  bpy_data_objects : gmap string SceneObject;
  stdout : list string
}.

(** ** The monad of Python commands *)

Definition Py (A : Type) : Type := World -> World * outcome A.

Definition ret {A : Type} (a : A) : Py A := fun w => (w, Returned a).

Definition raise {A : Type} (e : exn) : Py A := fun w => (w, Raised e).

Definition bind {A B : Type} (m : Py A) (k : A -> Py B) : Py B :=
  fun w =>
    match m w with
    | (w', Returned a) => k a w'
    | (w', Raised e) => (w', Raised e)
    end.

#[local] Notation "x <- m ;; k" := (bind m (fun x => k))
  (at level 100, m at next level, right associativity).
#[local] Notation "m ;;; k" := (bind m (fun _ => k))
  (at level 100, right associativity).

(** [for x in xs: body(x)]. *)
Fixpoint for_each {A : Type} (xs : list A) (body : A -> Py unit) : Py unit :=
  match xs with
  | [] => ret tt
  | x :: xs' => body x ;;; for_each xs' body
  end.

(** ** The library calls the script makes *)

(** [os.path.exists(path)]. *)
Definition os_path_exists (path : string) : Py bool :=
  fun w => (w, Returned (bool_decide (is_Some (fs w !! path)))).

(** [with open(path, 'r') as f: ... f.read()]. *)
Definition open_read (path : string) : Py string :=
  fun w =>
    match fs w !! path with
    | Some (RegularFile text) => (w, Returned text)
    | Some Directory => (w, Raised IsADirectoryError)
    | None => (w, Raised FileNotFoundError)
    end.

(** [json.load(f)] on the text read from [f]. *)
Definition json_load (text : string) : Py (pyval num) :=
  match json_decode text with
  | Some j => ret (to_py j)
  | None => raise JSONDecodeError
  end.

(** [state.items()]: only a dict has the method. *)
Definition items (state : pyval num) : Py (list (string * pyval num)) :=
  match state with
  | PyDict kvs => ret kvs
  | _ => raise AttributeError
  end.

(** [transforms[key]] for a string key. *)
Definition getitem (transforms : pyval num) (key : string) : Py (pyval num) :=
  match transforms with
  | PyDict kvs =>
      match dict_get kvs key with
      | Some v => ret v
      | None => raise (KeyError key)
      end
  | _ => raise TypeError
  end.

(** [bpy.data.objects.get(name)]: a handle on the object of that name, or
    [None].  A handle is the name the registry knows the object by. *)
Definition objects_get (name : string) : Py (option string) :=
  fun w =>
    match bpy_data_objects w !! name with
    | Some _ => (w, Returned (Some name))
    | None => (w, Returned None)
    end.

(** Modelled from the spec: the host's vector attributes ("per-object settable
    location/rotation_euler/scale fields of 3-component numeric-vector type";
    "HostRejection: the host API refuses an assigned value (e.g., wrong
    arity)").  The host is not part of the repository; it takes a list of
    exactly three numbers and keeps its components. *)
Definition host_vec3 (v : pyval num) : exn + vec3 :=
  match v with
  | PyList [PyNum x; PyNum y; PyNum z] => inr (x, y, z)
  | PyList [_; _; _] => inl TypeError
  | PyList _ => inl ValueError
  | _ => inl TypeError
  end.

(** [obj.<f> = v] on the object behind handle [h]. *)
Definition setattr (h : string) (f : field) (v : pyval num) : Py unit :=
  match host_vec3 v with
  | inr t =>
      fun w =>
        (mkWorld (fs w) (alter (set_field f t) h (bpy_data_objects w)) (stdout w),
         Returned tt)
  | inl e => raise e
  end.

(** [print(line)]. *)
Definition print (line : string) : Py unit :=
  fun w => (mkWorld (fs w) (bpy_data_objects w) (stdout w ++ [line]), Returned tt).

(** ** The script *)

Definition state_path : string :=
  "/Users/andresguarnizo/Projects/Personal_Website/lamp_assembled_state.json".

(** The body of the loop, for one item of the state. *)
Definition restore_entry (entry : string * pyval num) : Py unit :=
  let '(obj_name, transforms) := entry in
  obj <- objects_get obj_name ;;
  match obj with
  | Some h =>
      v <- getitem transforms "location" ;;
      setattr h Location v ;;;
      v <- getitem transforms "rotation_euler" ;;
      setattr h RotationEuler v ;;;
      v <- getitem transforms "scale" ;;
      setattr h Scale v ;;;
      print ("Restored " +:+ obj_name)
  | None => ret tt
  end.

Definition restore_assembled_state : Py unit :=
  found <- os_path_exists state_path ;;
  if negb found then
    print ("Error: " +:+ state_path +:+ " not found.")
  else
    text <- open_read state_path ;;
    state <- json_load text ;;
    kvs <- items state ;;
    for_each kvs restore_entry.

(** ** Vocabulary of the statements *)

(** The items of the state the script iterates over, when the file is there,
    decodes, and holds an object at top level. *)
Definition read_state (w : World) : option (list (string * pyval num)) :=
  match fs w !! state_path with
  | Some (RegularFile text) =>
      match json_decode text with
      | Some j =>
          match to_py j with
          | PyDict kvs => Some kvs
          | _ => None
          end
      | None => None
      end
  | _ => None
  end.

(** What [obj.<f> = transforms[key]] assigns, or the exception it raises:
    the subscript is evaluated first, then the host takes the value. *)
Definition field_value (transforms : pyval num) (key : string) : exn + vec3 :=
  match transforms with
  | PyDict kvs =>
      match dict_get kvs key with
      | Some v => host_vec3 v
      | None => inl (KeyError key)
      end
  | _ => inl TypeError
  end.

(** The triple a record holds under [key], when it is a record that has one. *)
Definition record_field (transforms : pyval num) (key : string) : option vec3 :=
  match field_value transforms key with
  | inr t => Some t
  | inl _ => None
  end.

(** A TransformRecord: the three keys are there, each with three numbers. *)
Definition well_shaped (transforms : pyval num) : bool :=
  match record_field transforms "location",
        record_field transforms "rotation_euler",
        record_field transforms "scale" with
  | Some _, Some _, Some _ => true
  | _, _, _ => false
  end.

(** The exceptions a record of the wrong shape ends in: a failed lookup or a
    value the host does not take. *)
Definition record_error (e : exn) : bool :=
  match e with
  | KeyError _ | TypeError | ValueError => true
  | _ => false
  end.

Definition restored_line (name : string) : string := "Restored " +:+ name.

Definition missing_line : string := "Error: " +:+ state_path +:+ " not found.".

(** ** The run as a list of effects

    One command of the script either assigns a transform attribute or prints
    a line.  Which effects a run has depends on the state and on which names
    the registry knows, not on the objects' current values. *)
Inductive effect : Type :=
| Assign (h : string) (f : field) (v : vec3)
| Say (line : string).

Definition apply_effect (w : World) (e : effect) : World :=
  match e with
  | Assign h f v =>
      mkWorld (fs w) (alter (set_field f v) h (bpy_data_objects w)) (stdout w)
  | Say line => mkWorld (fs w) (bpy_data_objects w) (stdout w ++ [line])
  end.

Definition apply_effects (es : list effect) (w : World) : World :=
  fold_left apply_effect es w.

(** The effects of the loop body on a matched entry, and how it ends. *)
Definition entry_effects (name : string) (transforms : pyval num)
  : list effect * outcome unit :=
  match field_value transforms "location" with
  | inl e => ([], Raised e)
  | inr l =>
      match field_value transforms "rotation_euler" with
      | inl e => ([Assign name Location l], Raised e)
      | inr r =>
          match field_value transforms "scale" with
          | inl e => ([Assign name Location l; Assign name RotationEuler r], Raised e)
          | inr s =>
              ([Assign name Location l; Assign name RotationEuler r;
                Assign name Scale s; Say (restored_line name)], Returned tt)
          end
      end
  end.

(** The effects of the whole loop over [kvs] when the registry knows the
    names in [known]. *)
Fixpoint plan (known : gset string) (kvs : list (string * pyval num))
  : list effect * outcome unit :=
  match kvs with
  | [] => ([], Returned tt)
  | (name, transforms) :: kvs' =>
      if decide (name ∈ known) then
        match entry_effects name transforms with
        | (es, Returned _) => (es ++ (plan known kvs').1, (plan known kvs').2)
        | (es, Raised e) => (es, Raised e)
        end
      else plan known kvs'
  end.

(** The lines a list of effects prints, and its assignments to the registry. *)
Definition said (es : list effect) : list string :=
  omap (fun e => match e with Say line => Some line | Assign _ _ _ => None end) es.

Definition assign (objs : gmap string SceneObject) (e : effect)
  : gmap string SceneObject :=
  match e with
  | Assign h f v => alter (set_field f v) h objs
  | Say _ => objs
  end.

Definition assigned (es : list effect) (objs : gmap string SceneObject)
  : gmap string SceneObject :=
  fold_left assign es objs.

(** The effects of the whole script. *)
Definition script_effects (w : World) : list effect * outcome unit :=
  match fs w !! state_path with
  | None => ([Say missing_line], Returned tt)
  | Some Directory => ([], Raised IsADirectoryError)
  | Some (RegularFile text) =>
      match json_decode text with
      | None => ([], Raised JSONDecodeError)
      | Some j =>
          match to_py j with
          | PyDict kvs => plan (dom (bpy_data_objects w)) kvs
          | _ => ([], Raised AttributeError)
          end
      end
  end.

(** Two effects write the same attribute of the same object. *)
Definition same_target (a b : effect) : Prop :=
  match a, b with
  | Assign h f _, Assign h' f' _ => h = h' /\ f = f'
  | _, _ => False
  end.

(** The names a list of effects assigns to. *)
Definition targets (es : list effect) : list string :=
  omap (fun e => match e with Assign h _ _ => Some h | Say _ => None end) es.

End restore_lamp.

Arguments vec3 : clear implicits.
Arguments SceneObject : clear implicits.
Arguments World : clear implicits.
Arguments Py : clear implicits.
Arguments effect : clear implicits.

(** * Example worlds

    Concrete inputs on which the script is run below: integer components, a
    host that stores each object's type, and a decoder that knows the few
    texts used here. *)

Definition dq : string := String (Ascii.ascii_of_nat 34) EmptyString.

Definition quoted (s : string) : string := dq +:+ s +:+ dq.

Definition record_text (l r s : string) : string :=
  "{" +:+ quoted "location" +:+ ": " +:+ l +:+ ", "
  +:+ quoted "rotation_euler" +:+ ": " +:+ r +:+ ", "
  +:+ quoted "scale" +:+ ": " +:+ s +:+ "}".

Definition triple (x y z : Z) : json Z := JArray [JNumber x; JNumber y; JNumber z].

Definition record (l r s : json Z) : json Z :=
  JObject [("location", l); ("rotation_euler", r); ("scale", s)].

Definition py_triple (x y z : Z) : pyval Z := PyList [PyNum x; PyNum y; PyNum z].

Definition py_record (l r s : pyval Z) : pyval Z :=
  PyDict [("location", l); ("rotation_euler", r); ("scale", s)].

(** The example of the specification: one object, Obj1. *)
Definition obj1_text : string :=
  "{" +:+ quoted "Obj1" +:+ ": "
  +:+ record_text "[1, 2, 3]" "[0, 0, 0]" "[1, 1, 1]" +:+ "}".

Definition obj1_document : json Z :=
  JObject [("Obj1", record (triple 1 2 3) (triple 0 0 0) (triple 1 1 1))].

Definition obj1_state : list (string * pyval Z) :=
  [("Obj1", py_record (py_triple 1 2 3) (py_triple 0 0 0) (py_triple 1 1 1))].

(** Three entries, the second for an object the scene no longer has. *)
Definition lamp_text : string :=
  "{" +:+ quoted "Obj1" +:+ ": "
  +:+ record_text "[1, 2, 3]" "[0, 0, 0]" "[1, 1, 1]" +:+ ", "
  +:+ quoted "Ghost" +:+ ": {}, "
  +:+ quoted "Obj2" +:+ ": "
  +:+ record_text "[0, 0, 5]" "[0, 0, 1]" "[2, 2, 2]" +:+ "}".

Definition lamp_document : json Z :=
  JObject [("Obj1", record (triple 1 2 3) (triple 0 0 0) (triple 1 1 1));
           ("Ghost", JObject []);
           ("Obj2", record (triple 0 0 5) (triple 0 0 1) (triple 2 2 2))].

Definition obj2_entry : string * pyval Z :=
  ("Obj2", py_record (py_triple 0 0 5) (py_triple 0 0 1) (py_triple 2 2 2)).

Definition lamp_state : list (string * pyval Z) :=
  obj1_state ++ ("Ghost", PyDict []) :: [obj2_entry].

(** A record without its scale. *)
Definition noscale_text : string :=
  "{" +:+ quoted "Obj1" +:+ ": {"
  +:+ quoted "location" +:+ ": [1, 2, 3], "
  +:+ quoted "rotation_euler" +:+ ": [0, 0, 0]}}".

Definition noscale_document : json Z :=
  JObject [("Obj1", JObject [("location", triple 1 2 3);
                             ("rotation_euler", triple 0 0 0)])].


(** A text cut short. *)
Definition truncated_text : string := "{" +:+ quoted "Obj1" +:+ ": {".

(** The decoder of the examples: it knows the documents above and takes any
    other text for malformed. *)
Definition demo_decode (text : string) : option (json Z) :=
  if decide (text = "{}") then Some (JObject [])
  else if decide (text = "[]") then Some (JArray [])
  else if decide (text = obj1_text) then Some obj1_document
  else if decide (text = lamp_text) then Some lamp_document
  else if decide (text = noscale_text) then Some noscale_document
  else None.

Definition obj1_before : SceneObject Z string :=
  mkSceneObject (9, 9, 9)%Z (8, 8, 8)%Z (7, 7, 7)%Z "MESH".

Definition obj2_before : SceneObject Z string :=
  mkSceneObject (0, 0, 0)%Z (0, 0, 0)%Z (1, 1, 1)%Z "MESH".

Definition camera : SceneObject Z string :=
  mkSceneObject (4, 5, 6)%Z (1, 0, 0)%Z (1, 1, 1)%Z "CAMERA".

Definition demo_scene : gmap string (SceneObject Z string) :=
  {[ "Obj1" := obj1_before; "Obj2" := obj2_before; "Camera" := camera ]}.

(** The scene above with [text] in the state file, and with no state file. *)
Definition world_with (text : string) : World Z string :=
  mkWorld {[ state_path := RegularFile text ]} demo_scene [].

Definition world_without : World Z string := mkWorld ∅ demo_scene [].

(** The same scene and state file, beside another file and after other output. *)
Definition busy_world (text : string) : World Z string :=
  mkWorld {[ state_path := RegularFile text; "/tmp/notes.txt" := RegularFile "x" ]}
          demo_scene ["Blender started"].

(** Three entries, the second with nothing but a location. *)
Definition broken_lamp_text : string :=
  "{" +:+ quoted "Obj1" +:+ ": "
  +:+ record_text "[1, 2, 3]" "[0, 0, 0]" "[1, 1, 1]" +:+ ", "
  +:+ quoted "Obj2" +:+ ": {" +:+ quoted "location" +:+ ": [0, 0, 5]}, "
  +:+ quoted "Camera" +:+ ": "
  +:+ record_text "[0, 0, 0]" "[0, 0, 0]" "[1, 1, 1]" +:+ "}".

Definition broken_lamp_document : json Z :=
  JObject [("Obj1", record (triple 1 2 3) (triple 0 0 0) (triple 1 1 1));
           ("Obj2", JObject [("location", triple 0 0 5)]);
           ("Camera", record (triple 0 0 0) (triple 0 0 0) (triple 1 1 1))].

Definition location_only : pyval Z := PyDict [("location", py_triple 0 0 5)].

Definition camera_entry : string * pyval Z :=
  ("Camera", py_record (py_triple 0 0 0) (py_triple 0 0 0) (py_triple 1 1 1)).

(** The same, the second entry an empty record. *)
Definition unlocated_lamp_text : string :=
  "{" +:+ quoted "Obj1" +:+ ": "
  +:+ record_text "[1, 2, 3]" "[0, 0, 0]" "[1, 1, 1]" +:+ ", "
  +:+ quoted "Obj2" +:+ ": {}, "
  +:+ quoted "Camera" +:+ ": "
  +:+ record_text "[0, 0, 0]" "[0, 0, 0]" "[1, 1, 1]" +:+ "}".

Definition unlocated_lamp_document : json Z :=
  JObject [("Obj1", record (triple 1 2 3) (triple 0 0 0) (triple 1 1 1));
           ("Obj2", JObject []);
           ("Camera", record (triple 0 0 0) (triple 0 0 0) (triple 1 1 1))].

(** The entries of [lamp_text] in the opposite order. *)
Definition swapped_lamp_text : string :=
  "{" +:+ quoted "Obj2" +:+ ": "
  +:+ record_text "[0, 0, 5]" "[0, 0, 1]" "[2, 2, 2]" +:+ ", "
  +:+ quoted "Ghost" +:+ ": {}, "
  +:+ quoted "Obj1" +:+ ": "
  +:+ record_text "[1, 2, 3]" "[0, 0, 0]" "[1, 1, 1]" +:+ "}".

Definition swapped_lamp_document : json Z :=
  JObject [("Obj2", record (triple 0 0 5) (triple 0 0 1) (triple 2 2 2));
           ("Ghost", JObject []);
           ("Obj1", record (triple 1 2 3) (triple 0 0 0) (triple 1 1 1))].

(** A document that names Obj1 twice. *)
Definition repeated_text : string :=
  "{" +:+ quoted "Obj1" +:+ ": "
  +:+ record_text "[1, 2, 3]" "[0, 0, 0]" "[1, 1, 1]" +:+ ", "
  +:+ quoted "Obj2" +:+ ": "
  +:+ record_text "[0, 0, 5]" "[0, 0, 1]" "[2, 2, 2]" +:+ ", "
  +:+ quoted "Obj1" +:+ ": "
  +:+ record_text "[4, 4, 4]" "[0, 1, 0]" "[3, 3, 3]" +:+ "}".

Definition repeated_members : list (string * json Z) :=
  [("Obj1", record (triple 1 2 3) (triple 0 0 0) (triple 1 1 1));
   ("Obj2", record (triple 0 0 5) (triple 0 0 1) (triple 2 2 2));
   ("Obj1", record (triple 4 4 4) (triple 0 1 0) (triple 3 3 3))].

(** A second decoder, for the documents above. *)
Definition edge_decode (text : string) : option (json Z) :=
  if decide (text = lamp_text) then Some lamp_document
  else if decide (text = swapped_lamp_text) then Some swapped_lamp_document
  else if decide (text = broken_lamp_text) then Some broken_lamp_document
  else if decide (text = unlocated_lamp_text) then Some unlocated_lamp_document
  else if decide (text = repeated_text) then Some (JObject repeated_members)
  else None.

(** A scene with the camera alone. *)
Definition camera_world (text : string) : World Z string :=
  mkWorld {[ state_path := RegularFile text ]} {[ "Camera" := camera ]} [].

(** * Properties *)

Section properties.

Context {num HostData : Type}.
Variable json_decode : string -> option (json num).

#[local] Abbreviation world := (World num HostData).
#[local] Abbreviation registry := (gmap string (SceneObject num HostData)).

(** ** Effects: basic facts *)

Lemma apply_effects_app (es1 es2 : list (effect num)) (w : world) :
  apply_effects (es1 ++ es2) w = apply_effects es2 (apply_effects es1 w).
Proof. apply fold_left_app. Qed.

Lemma apply_effects_cons (e : effect num) (es : list (effect num)) (w : world) :
  apply_effects (e :: es) w = apply_effects es (apply_effect w e).
Proof. done. Qed.

Lemma assigned_cons (e : effect num) (es : list (effect num)) (objs : registry) :
  assigned (e :: es) objs = assigned es (assign objs e).
Proof. done. Qed.

Lemma assigned_app (es1 es2 : list (effect num)) (objs : registry) :
  assigned (es1 ++ es2) objs = assigned es2 (assigned es1 objs).
Proof. apply fold_left_app. Qed.

Lemma fs_apply_effects (es : list (effect num)) (w : world) :
  fs (apply_effects es w) = fs w.
Proof.
  revert w. induction es as [|e es IH]; intros w; [done|].
  rewrite apply_effects_cons, IH. by destruct e.
Qed.

Lemma stdout_apply_effects (es : list (effect num)) (w : world) :
  stdout (apply_effects es w) = stdout w ++ said es.
Proof.
  revert w. induction es as [|e es IH]; intros w.
  - by rewrite app_nil_r.
  - rewrite apply_effects_cons, IH. destruct e; cbn; [done|].
    by rewrite <- app_assoc.
Qed.

Lemma objects_apply_effects (es : list (effect num)) (w : world) :
  bpy_data_objects (apply_effects es w) = assigned es (bpy_data_objects w).
Proof.
  revert w. induction es as [|e es IH]; intros w; [done|].
  rewrite apply_effects_cons, IH. by destruct e.
Qed.

Lemma dom_assigned (es : list (effect num)) (objs : registry) :
  dom (assigned es objs) = dom objs.
Proof.
  revert objs. induction es as [|e es IH]; intros objs; [done|].
  rewrite assigned_cons, IH. destruct e; cbn; [apply dom_alter_L | done].
Qed.

Lemma dom_apply_effects (es : list (effect num)) (w : world) :
  dom (bpy_data_objects (apply_effects es w)) = dom (bpy_data_objects w).
Proof. rewrite objects_apply_effects. apply dom_assigned. Qed.

(** ** The script and its effects *)

Lemma assign_step (transforms : pyval num) (key h : string) (f : field)
    (k : Py num HostData unit) (w : world) :
  bind (getitem transforms key) (fun v => bind (setattr h f v) (fun _ => k)) w =
  match field_value transforms key with
  | inl e => (w, Raised e)
  | inr t => k (apply_effect w (Assign h f t))
  end.
Proof.
  unfold bind, getitem, field_value, setattr.
  destruct transforms as [| | | | |kvs]; try done.
  destruct (dict_get kvs key) as [v|]; [|done].
  cbn. by destruct (host_vec3 v).
Qed.

Lemma restore_entry_absent (name : string) (transforms : pyval num) (w : world) :
  bpy_data_objects w !! name = None ->
  restore_entry (name, transforms) w = (w, Returned tt).
Proof. intros H. unfold restore_entry, bind, objects_get. by rewrite H. Qed.

Lemma restore_entry_present (name : string) (transforms : pyval num) (w : world) :
  is_Some (bpy_data_objects w !! name) ->
  restore_entry (name, transforms) w =
  (apply_effects (entry_effects name transforms).1 w,
   (entry_effects name transforms).2).
Proof.
  intros [o H]. unfold restore_entry, entry_effects.
  unfold bind at 1. unfold objects_get. rewrite H.
  rewrite assign_step.
  destruct (field_value transforms "location") as [e|l]; [done|].
  rewrite assign_step.
  destruct (field_value transforms "rotation_euler") as [e|r]; [done|].
  rewrite assign_step.
  by destruct (field_value transforms "scale") as [e|s].
Qed.

Lemma for_each_plan (kvs : list (string * pyval num)) (w : world) :
  for_each kvs restore_entry w =
  (apply_effects (plan (dom (bpy_data_objects w)) kvs).1 w,
   (plan (dom (bpy_data_objects w)) kvs).2).
Proof.
  revert w. induction kvs as [|[name transforms] kvs IH]; intros w; [done|].
  cbn [for_each plan]. unfold bind.
  destruct (decide (name ∈ dom (bpy_data_objects w))) as [Hin|Hout].
  - apply elem_of_dom in Hin.
    rewrite (restore_entry_present _ _ _ Hin).
    destruct (entry_effects name transforms) as [es [[]|e]]; [|done].
    cbn [fst snd]. rewrite IH, dom_apply_effects, apply_effects_app. done.
  - apply not_elem_of_dom in Hout.
    rewrite (restore_entry_absent _ _ _ Hout). apply IH.
Qed.

Lemma restore_script_effects (w : world) :
  restore_assembled_state json_decode w =
  (apply_effects (script_effects json_decode w).1 w, (script_effects json_decode w).2).
Proof.
  unfold restore_assembled_state, script_effects.
  unfold bind at 1. unfold os_path_exists.
  destruct (fs w !! state_path) as [[text|]|] eqn:Hfs.
  - rewrite bool_decide_true by eauto. cbn [negb].
    unfold bind at 1. unfold open_read. rewrite Hfs.
    unfold bind at 1. unfold json_load.
    destruct (json_decode text) as [j|]; [|done].
    unfold ret at 1. unfold bind.
    destruct (to_py j); try done. apply for_each_plan.
  - rewrite bool_decide_true by eauto. cbn [negb].
    unfold bind at 1. unfold open_read. by rewrite Hfs.
  - rewrite bool_decide_false by (intros [? ?]; done). done.
Qed.

Lemma restore_read_state (w : world) (kvs : list (string * pyval num)) :
  read_state json_decode w = Some kvs ->
  script_effects json_decode w = plan (dom (bpy_data_objects w)) kvs.
Proof.
  unfold read_state, script_effects.
  destruct (fs w !! state_path) as [[text|]|]; try done.
  destruct (json_decode text) as [j|]; try done.
  destruct (to_py j); try done. by intros [= ->].
Qed.

(** ** Which objects the effects reach *)

Lemma field_value_record_field (transforms : pyval num) (key : string) (t : vec3 num) :
  field_value transforms key = inr t <-> record_field transforms key = Some t.
Proof.
  unfold record_field. destruct (field_value transforms key); split; congruence.
Qed.

Lemma entry_effects_well_shaped (name : string) (transforms : pyval num) :
  well_shaped transforms = true ->
  exists l r s,
    record_field transforms "location" = Some l /\
    record_field transforms "rotation_euler" = Some r /\
    record_field transforms "scale" = Some s /\
    entry_effects name transforms =
      ([Assign name Location l; Assign name RotationEuler r;
        Assign name Scale s; Say (restored_line name)], Returned tt).
Proof.
  unfold well_shaped, entry_effects, record_field.
  destruct (field_value transforms "location") as [?|l]; [done|].
  destruct (field_value transforms "rotation_euler") as [?|r]; [done|].
  destruct (field_value transforms "scale") as [?|s]; [done|].
  intros _. by exists l, r, s.
Qed.

Lemma field_value_error (transforms : pyval num) (key : string) (e : exn) :
  field_value transforms key = inl e -> record_error e = true.
Proof.
  unfold field_value. destruct transforms as [| | | | |kvs]; try by intros [= <-].
  destruct (dict_get kvs key) as [v|]; [|by intros [= <-]].
  unfold host_vec3. repeat case_match; by intros [= <-].
Qed.

Lemma entry_effects_ill_shaped (name : string) (transforms : pyval num) :
  well_shaped transforms = false ->
  exists es e,
    entry_effects name transforms = (es, Raised e) /\ record_error e = true.
Proof.
  unfold well_shaped, entry_effects, record_field.
  destruct (field_value transforms "location") as [e|l] eqn:Hl;
    [intros _; eauto using field_value_error|].
  destruct (field_value transforms "rotation_euler") as [e|r] eqn:Hr;
    [intros _; eauto using field_value_error|].
  destruct (field_value transforms "scale") as [e|s] eqn:Hs;
    [intros _; eauto using field_value_error|done].
Qed.


Lemma targets_app (es1 es2 : list (effect num)) :
  targets (es1 ++ es2) = targets es1 ++ targets es2.
Proof. apply omap_app. Qed.

Lemma said_app (es1 es2 : list (effect num)) :
  said (es1 ++ es2) = said es1 ++ said es2.
Proof. apply omap_app. Qed.

Lemma targets_entry_effects (name : string) (transforms : pyval num) (h : string) :
  h ∈ targets (entry_effects name transforms).1 -> h = name.
Proof.
  unfold entry_effects.
  destruct (field_value transforms "location") as [?|l]; cbn;
    [by intros ?%elem_of_nil|].
  destruct (field_value transforms "rotation_euler") as [?|r]; cbn;
    [by intros ?%list_elem_of_singleton|].
  destruct (field_value transforms "scale") as [?|s]; cbn;
    rewrite !elem_of_cons, elem_of_nil; naive_solver.
Qed.

Lemma targets_plan (known : gset string) (kvs : list (string * pyval num)) (h : string) :
  h ∈ targets (plan known kvs).1 -> h ∈ kvs.*1.
Proof.
  induction kvs as [|[name transforms] kvs IH]; cbn [plan];
    [by intros ?%elem_of_nil|].
  rewrite fmap_cons, elem_of_cons. cbn [fst].
  destruct (decide (name ∈ known)) as [Hin|Hout]; [|by auto].
  pose proof (targets_entry_effects name transforms h) as Hhead.
  destruct (entry_effects name transforms) as [es [[]|e]]; cbn [fst snd] in *.
  - rewrite targets_app, elem_of_app. intros [?|?]; auto.
  - auto.
Qed.

Lemma assigned_untargeted (es : list (effect num)) (objs : registry) (name : string) :
  name ∉ targets es -> assigned es objs !! name = objs !! name.
Proof.
  revert objs. induction es as [|e es IH]; intros objs Hnot; [done|].
  rewrite assigned_cons. destruct e as [h f v|line]; cbn in Hnot.
  - apply not_elem_of_cons in Hnot as [Hne Hnot].
    rewrite IH by done. cbn. by apply lookup_alter_ne.
  - by rewrite IH.
Qed.

Lemma assigned_host_data (es : list (effect num)) (objs : registry) (name : string) :
  host_data <$> assigned es objs !! name = host_data <$> objs !! name.
Proof.
  revert objs. induction es as [|e es IH]; intros objs; [done|].
  rewrite assigned_cons, IH. destruct e as [h f v|line]; [|done]. cbn.
  destruct (decide (h = name)) as [->|Hne].
  - rewrite lookup_alter_eq. destruct (objs !! name) as [o|]; [|done].
    by destruct f.
  - by rewrite lookup_alter_ne.
Qed.

(** ** Assignments overwrite

    An assignment stores a value that does not depend on what the attribute
    held.  A later assignment to the same attribute therefore absorbs an
    earlier one, and assignments to different attributes commute. *)

Lemma same_target_cases (a b : effect num) : same_target a b \/ ~ same_target a b.
Proof.
  destruct a as [h f v|?], b as [h' f' v'|?]; cbn; try (right; tauto).
  destruct (decide (h = h')) as [Hh|Hh]; [|right; tauto].
  destruct f, f'; first [left; by split | right; intros [_ ?]; done].
Qed.

Lemma set_field_absorb (f : field) (v v' : vec3 num) (o : SceneObject num HostData) :
  set_field f v' (set_field f v o) = set_field f v' o.
Proof. by destruct f. Qed.

Lemma set_field_commute (f f' : field) (v v' : vec3 num) (o : SceneObject num HostData) :
  f <> f' -> set_field f' v' (set_field f v o) = set_field f v (set_field f' v' o).
Proof. by destruct f, f'. Qed.

Lemma assign_absorb (a b : effect num) (objs : registry) :
  same_target a b -> assign (assign objs a) b = assign objs b.
Proof.
  destruct a as [h f v|?], b as [h' f' v'|?]; cbn; try done.
  intros [<- <-]. rewrite alter_alter_eq. apply alter_ext.
  intros o _. apply set_field_absorb.
Qed.

Lemma assign_commute (a b : effect num) (objs : registry) :
  ~ same_target a b -> assign (assign objs a) b = assign (assign objs b) a.
Proof.
  destruct a as [h f v|?], b as [h' f' v'|?]; cbn; try done.
  intros Hdiff. destruct (decide (h = h')) as [<-|Hne].
  - rewrite !alter_alter_eq. apply alter_ext. intros o _.
    apply set_field_commute. intros <-. by apply Hdiff.
  - by apply alter_alter_ne.
Qed.

Lemma assigned_snoc (es : list (effect num)) (e : effect num) (objs : registry) :
  assigned (es ++ [e]) objs = assign (assigned es objs) e.
Proof. by rewrite assigned_app. Qed.

(** Running [a], then [es], then [a] again leaves what [es], then [a] does. *)
Lemma assigned_absorb_last (es : list (effect num)) (a : effect num) (objs : registry) :
  assign (assigned es (assign objs a)) a = assign (assigned es objs) a.
Proof.
  revert objs. induction es as [|b es IH]; intros objs.
  - cbn. destruct a as [h f v|?]; [|done]. by apply assign_absorb.
  - rewrite !assigned_cons.
    destruct (same_target_cases a b) as [Hsame|Hdiff].
    + by rewrite assign_absorb.
    + by rewrite assign_commute, IH.
Qed.

(** Running [a], then [es], then [a], then [es] again leaves what [a], then [es] does. *)
Lemma assigned_absorb_first (es : list (effect num)) (a : effect num) (objs : registry) :
  assigned es (assign (assigned es (assign objs a)) a) = assigned es (assign objs a).
Proof.
  revert objs. induction es as [|b es IH] using rev_ind; intros objs.
  - cbn. destruct a as [h f v|?]; [|done]. by apply assign_absorb.
  - rewrite !assigned_snoc.
    destruct (same_target_cases b a) as [Hsame|Hdiff].
    + by rewrite assign_absorb, IH.
    + by rewrite assign_commute, assigned_absorb_last, IH.
Qed.

Lemma assigned_idempotent (es : list (effect num)) (objs : registry) :
  assigned es (assigned es objs) = assigned es objs.
Proof.
  revert objs. induction es as [|a es IH]; intros objs; [done|].
  rewrite !assigned_cons. apply assigned_absorb_first.
Qed.

(** ** The keys of a decoded object are distinct *)

Lemma dict_setitem_keys {V : Type} (d : list (string * V)) (k : string) (v : V) :
  (dict_setitem d k v).*1 = if decide (k ∈ d.*1) then d.*1 else d.*1 ++ [k].
Proof.
  induction d as [|[k' v'] d IH]; [done|].
  cbn [dict_setitem]. rewrite !fmap_cons. cbn [fst].
  destruct (decide (k' = k)) as [->|Hne].
  - rewrite decide_True by apply list_elem_of_here. done.
  - rewrite fmap_cons, IH. cbn [fst].
    destruct (decide (k ∈ d.*1)) as [Hin|Hout].
    + rewrite decide_True by by apply list_elem_of_further. done.
    + rewrite decide_False; [done|].
      intros [?|?]%elem_of_cons; congruence.
Qed.

Lemma NoDup_dict_setitem {V : Type} (d : list (string * V)) (k : string) (v : V) :
  NoDup d.*1 -> NoDup (dict_setitem d k v).*1.
Proof.
  intros Hd. rewrite dict_setitem_keys. case_decide as Hk; [done|].
  apply NoDup_app. split_and!; [done| |apply NoDup_singleton].
  intros x Hx ->%list_elem_of_singleton. done.
Qed.

Lemma NoDup_dict_of_pairs {V : Type} (pairs : list (string * V)) :
  NoDup (dict_of_pairs pairs).*1.
Proof.
  unfold dict_of_pairs.
  assert (NoDup ([] : list (string * V)).*1) as Hnil by constructor.
  revert Hnil. generalize ([] : list (string * V)).
  induction pairs as [|[k v] pairs IH]; intros d Hd; [done|].
  cbn. apply IH. by apply NoDup_dict_setitem.
Qed.

Lemma read_state_NoDup (w : world) (kvs : list (string * pyval num)) :
  read_state json_decode w = Some kvs -> NoDup kvs.*1.
Proof.
  unfold read_state.
  destruct (fs w !! state_path) as [[text|]|]; try done.
  destruct (json_decode text) as [j|]; try done.
  destruct j; try done. cbn. intros [= <-]. apply NoDup_dict_of_pairs.
Qed.

(** ** The plan of the loop *)

Lemma plan_cons_known (known : gset string) (name : string) (transforms : pyval num)
    (kvs : list (string * pyval num)) :
  name ∈ known ->
  plan known ((name, transforms) :: kvs) =
  match entry_effects name transforms with
  | (es, Returned _) => (es ++ (plan known kvs).1, (plan known kvs).2)
  | (es, Raised e) => (es, Raised e)
  end.
Proof. intros Hin. cbn [plan]. by rewrite decide_True. Qed.

Lemma plan_cons_unknown (known : gset string) (name : string) (transforms : pyval num)
    (kvs : list (string * pyval num)) :
  name ∉ known -> plan known ((name, transforms) :: kvs) = plan known kvs.
Proof. intros Hout. cbn [plan]. by rewrite decide_False. Qed.

(** An entry whose name the registry does not know contributes nothing. *)
Lemma plan_skip (known : gset string) (name : string) (transforms : pyval num)
    (before after : list (string * pyval num)) :
  name ∉ known ->
  plan known (before ++ (name, transforms) :: after) = plan known (before ++ after).
Proof.
  intros Hout. induction before as [|[n t] before IH].
  - by apply plan_cons_unknown.
  - cbn [app plan]. by rewrite IH.
Qed.

Lemma plan_returned (known : gset string) (kvs : list (string * pyval num)) :
  (forall name transforms,
      (name, transforms) ∈ kvs -> name ∈ known -> well_shaped transforms = true) ->
  (plan known kvs).2 = Returned tt.
Proof.
  induction kvs as [|[name transforms] kvs IH]; intros Hshape; [done|].
  cbn [plan]. destruct (decide (name ∈ known)) as [Hin|Hout].
  - destruct (entry_effects_well_shaped name transforms)
      as (l & r & s & _ & _ & _ & ->).
    { apply (Hshape name); [apply list_elem_of_here | done]. }
    cbn [snd]. apply IH. intros n t Hnt. apply Hshape. by apply list_elem_of_further.
  - apply IH. intros n t Hnt. apply Hshape. by apply list_elem_of_further.
Qed.


Lemma plan_raised (known : gset string) (kvs : list (string * pyval num))
    (name : string) (transforms : pyval num) :
  (name, transforms) ∈ kvs -> name ∈ known -> well_shaped transforms = false ->
  exists e, (plan known kvs).2 = Raised e.
Proof.
  intros Hin Hknown Hshape.
  induction kvs as [|[n t] kvs IH]; [by apply elem_of_nil in Hin|].
  cbn [plan]. destruct (decide (n ∈ known)) as [Hn|Hn].
  - destruct (entry_effects n t) as [es [[]|e']] eqn:Hentry; [|by eauto].
    cbn [snd]. apply elem_of_cons in Hin as [[= <- <-]|Hin]; [|by auto].
    destruct (entry_effects_ill_shaped name transforms Hshape) as (? & ? & ? & _).
    congruence.
  - apply elem_of_cons in Hin as [[= <- <-]|Hin]; [done | by auto].
Qed.

Lemma said_entry_effects (name : string) (transforms : pyval num) :
  said (entry_effects name transforms).1 =
  match (entry_effects name transforms).2 with
  | Returned _ => [restored_line name]
  | Raised _ => []
  end.
Proof.
  unfold entry_effects.
  destruct (field_value transforms "location") as [?|l]; [done|].
  destruct (field_value transforms "rotation_euler") as [?|r]; [done|].
  by destruct (field_value transforms "scale") as [?|s].
Qed.

(** The lines printed are the reports of the matched entries of an initial
    part of the state, in order; of the whole state when the loop ends. *)
Lemma said_plan (known : gset string) (kvs : list (string * pyval num)) :
  exists done rest,
    kvs = done ++ rest /\
    said (plan known kvs).1 = restored_line <$> filter (.∈ known) done.*1 /\
    ((plan known kvs).2 = Returned tt -> rest = []).
Proof.
  induction kvs as [|[name transforms] kvs (done & rest & -> & Hsaid & Hret)].
  { by exists [], []. }
  cbn [plan]. destruct (decide (name ∈ known)) as [Hin|Hout].
  - pose proof (said_entry_effects name transforms) as Hentry.
    destruct (entry_effects name transforms) as [es [[]|e]]; cbn [fst snd] in *.
    + exists ((name, transforms) :: done), rest. split_and!; [done| |done].
      rewrite said_app, Hentry, Hsaid, fmap_cons. cbn [fst].
      by rewrite filter_cons_True.
    + exists [], ((name, transforms) :: done ++ rest). by rewrite Hentry.
  - exists ((name, transforms) :: done), rest. split_and!; [done| |done].
    rewrite Hsaid, fmap_cons. cbn [fst]. by rewrite filter_cons_False.
Qed.

Lemma entry_effects_returned (name : string) (transforms : pyval num)
    (es : list (effect num)) (u : unit) :
  entry_effects name transforms = (es, Returned u) -> well_shaped transforms = true.
Proof.
  intros Hentry. destruct (well_shaped transforms) eqn:Hshape; [done|].
  destruct (entry_effects_ill_shaped name transforms Hshape) as (? & ? & ? & _).
  congruence.
Qed.

(** After a loop that ends normally, every matched entry's object holds the
    entry's three triples. *)
Lemma assigned_plan_restores (known : gset string) (kvs : list (string * pyval num))
    (objs : registry) :
  dom objs = known ->
  NoDup kvs.*1 ->
  (plan known kvs).2 = Returned tt ->
  forall name transforms,
    (name, transforms) ∈ kvs -> name ∈ known ->
    exists o,
      assigned (plan known kvs).1 objs !! name = Some o /\
      record_field transforms "location" = Some (location o) /\
      record_field transforms "rotation_euler" = Some (rotation_euler o) /\
      record_field transforms "scale" = Some (scale o).
Proof.
  revert objs.
  induction kvs as [|[n0 t0] kvs IH];
    intros objs Hdom Hnodup Hret name transforms Hin Hknown.
  { by apply elem_of_nil in Hin. }
  rewrite fmap_cons in Hnodup. cbn [fst] in Hnodup.
  apply NoDup_cons in Hnodup as [Hfresh Hnodup].
  destruct (decide (n0 ∈ known)) as [Hn0|Hn0].
  - rewrite plan_cons_known in Hret |- * by done.
    destruct (entry_effects n0 t0) as [es [[]|e]] eqn:Hentry; [|done].
    cbn [fst snd] in *. rewrite assigned_app.
    apply elem_of_cons in Hin as [[= -> ->]|Hin].
    + rewrite assigned_untargeted by (intros Ht; by apply targets_plan in Ht).
      apply entry_effects_returned in Hentry as Hshape.
      destruct (entry_effects_well_shaped n0 t0 Hshape)
        as (l & r & s & Hl & Hr & Hs & Hes).
      rewrite Hentry in Hes. injection Hes as ->.
      rewrite <- Hdom in Hn0. apply elem_of_dom in Hn0 as [o Ho].
      cbn. rewrite !lookup_alter_eq, Ho. cbn. eexists. split; [done|]. by cbn.
    + apply IH; try done. by rewrite dom_assigned.
  - rewrite plan_cons_unknown in Hret |- * by done.
    apply elem_of_cons in Hin as [[= -> ->]|Hin]; [done|]. by apply IH.
Qed.

(** ** The script on a state it could read *)

Lemma restore_loaded (w : world) (kvs : list (string * pyval num)) :
  read_state json_decode w = Some kvs ->
  restore_assembled_state json_decode w =
  (apply_effects (plan (dom (bpy_data_objects w)) kvs).1 w,
   (plan (dom (bpy_data_objects w)) kvs).2).
Proof.
  intros Hread. by rewrite restore_script_effects, (restore_read_state _ _ Hread).
Qed.

Lemma restore_loaded_for_each (w : world) (kvs : list (string * pyval num)) :
  read_state json_decode w = Some kvs ->
  restore_assembled_state json_decode w = for_each kvs restore_entry w.
Proof. intros Hread. by rewrite for_each_plan, (restore_loaded _ _ Hread). Qed.

(** The script never touches the file system. *)
Lemma restore_fs (w : world) : fs (restore_assembled_state json_decode w).1 = fs w.
Proof. rewrite restore_script_effects. apply fs_apply_effects. Qed.

(** The script neither adds an object to the registry nor removes one. *)
Lemma restore_dom (w : world) :
  dom (bpy_data_objects (restore_assembled_state json_decode w).1) =
  dom (bpy_data_objects w).
Proof. rewrite restore_script_effects. apply dom_apply_effects. Qed.

(** Its effects depend on the state file and on the names the registry knows. *)
Lemma script_effects_ext (w1 w2 : world) :
  fs w1 !! state_path = fs w2 !! state_path ->
  dom (bpy_data_objects w1) = dom (bpy_data_objects w2) ->
  script_effects json_decode w1 = script_effects json_decode w2.
Proof. unfold script_effects. by intros -> ->. Qed.

(** Whatever the state holds, the lines printed are the reports of the matched
    entries of an initial part of it. *)
Lemma restore_reports_prefix (w : world) (kvs : list (string * pyval num)) :
  read_state json_decode w = Some kvs ->
  exists done rest,
    kvs = done ++ rest /\
    stdout (restore_assembled_state json_decode w).1 =
      stdout w ++ (restored_line <$> filter (.∈ dom (bpy_data_objects w)) done.*1) /\
    ((restore_assembled_state json_decode w).2 = Returned tt -> rest = []).
Proof.
  intros Hread. rewrite (restore_loaded _ _ Hread). cbn [fst snd].
  destruct (said_plan (dom (bpy_data_objects w)) kvs) as (done & rest & ? & Hsaid & ?).
  exists done, rest. by rewrite stdout_apply_effects, Hsaid.
Qed.

(** ** The claims of the specification *)

(** C1: when the state file holds a SavedState (every value a record with the
    three triples) and the registry knows every name in it, the script returns
    normally and afterwards every named object's location, rotation_euler and
    scale are the very components of its record, whatever they were before. *)
Theorem restore_assigns_records (w : world) (kvs : list (string * pyval num)) :
  read_state json_decode w = Some kvs ->
  (forall name transforms,
      (name, transforms) ∈ kvs ->
      is_Some (bpy_data_objects w !! name) /\ well_shaped transforms = true) ->
  (restore_assembled_state json_decode w).2 = Returned tt /\
  forall name transforms,
    (name, transforms) ∈ kvs ->
    exists o,
      bpy_data_objects (restore_assembled_state json_decode w).1 !! name = Some o /\
      record_field transforms "location" = Some (location o) /\
      record_field transforms "rotation_euler" = Some (rotation_euler o) /\
      record_field transforms "scale" = Some (scale o).
Proof.
  intros Hread Hall. rewrite (restore_loaded _ _ Hread). cbn [fst snd].
  assert ((plan (dom (bpy_data_objects w)) kvs).2 = Returned tt) as Hret.
  { apply plan_returned. intros name transforms Hin _.
    by destruct (Hall name transforms Hin). }
  split; [done|]. intros name transforms Hin.
  rewrite objects_apply_effects.
  apply assigned_plan_restores; try done.
  - by apply read_state_NoDup in Hread.
  - apply elem_of_dom. by destruct (Hall name transforms Hin).
Qed.

(** C2: when nothing exists at the state path, the script returns normally,
    having printed the one line that names the missing path and changed
    nothing else: no object is touched and no exception is raised. *)
Theorem restore_missing_file (w : world) :
  fs w !! state_path = None ->
  restore_assembled_state json_decode w =
  (mkWorld (fs w) (bpy_data_objects w) (stdout w ++ [missing_line]), Returned tt).
Proof.
  intros Hfs. rewrite restore_script_effects.
  unfold script_effects. by rewrite Hfs.
Qed.

(** C3: an entry whose name the registry does not know is skipped: the run is
    the run of the loop over the other entries, so nothing is printed or
    raised for it; the loop body on it returns at once, whatever its record
    looks like; and the registry keeps its set of names and its size.  The
    other entries are still processed: when their records on matched objects
    are well-shaped, the run returns normally, it prints the report of every
    matched entry before and after the skipped one, in order, and every such
    object holds the three triples of its record. *)
Theorem restore_skips_unknown (w : world) (before after : list (string * pyval num))
    (name : string) (transforms : pyval num) :
  read_state json_decode w = Some (before ++ (name, transforms) :: after) ->
  bpy_data_objects w !! name = None ->
  restore_assembled_state json_decode w = for_each (before ++ after) restore_entry w /\
  restore_entry (name, transforms) w = (w, Returned tt) /\
  dom (bpy_data_objects (restore_assembled_state json_decode w).1) =
    dom (bpy_data_objects w) /\
  size (bpy_data_objects (restore_assembled_state json_decode w).1) =
    size (bpy_data_objects w) /\
  ((forall n t,
       (n, t) ∈ before ++ after -> is_Some (bpy_data_objects w !! n) ->
       well_shaped t = true) ->
   (restore_assembled_state json_decode w).2 = Returned tt /\
   stdout (restore_assembled_state json_decode w).1 =
     stdout w ++
     (restored_line <$> filter (.∈ dom (bpy_data_objects w)) (before ++ after).*1) /\
   forall n t,
     (n, t) ∈ before ++ after -> is_Some (bpy_data_objects w !! n) ->
     exists o,
       bpy_data_objects (restore_assembled_state json_decode w).1 !! n = Some o /\
       record_field t "location" = Some (location o) /\
       record_field t "rotation_euler" = Some (rotation_euler o) /\
       record_field t "scale" = Some (scale o)).
Proof.
  intros Hread Hnone. split_and!.
  - rewrite (restore_loaded _ _ Hread), for_each_plan.
    by rewrite plan_skip by by apply not_elem_of_dom.
  - by apply restore_entry_absent.
  - apply restore_dom.
  - by rewrite <- !size_dom, restore_dom.
  - intros Hall.
    assert (name ∉ dom (bpy_data_objects w)) as Hout by by apply not_elem_of_dom.
    assert (forall n t, (n, t) ∈ before ++ after ->
                        (n, t) ∈ before ++ (name, transforms) :: after) as Hsub.
    { intros n t. rewrite !elem_of_app, elem_of_cons. tauto. }
    assert ((plan (dom (bpy_data_objects w))
               (before ++ (name, transforms) :: after)).2 = Returned tt) as Hret.
    { rewrite plan_skip by done. apply plan_returned.
      intros n t Hnt Hn. apply (Hall n t Hnt). by apply elem_of_dom. }
    split_and!.
    + by rewrite (restore_loaded _ _ Hread).
    + destruct (restore_reports_prefix w _ Hread) as (done & rest & Hsplit & Hprinted & Hrest).
      rewrite (restore_loaded _ _ Hread) in Hrest. cbn [snd] in Hrest.
      rewrite (Hrest Hret), app_nil_r in Hsplit. subst done.
      rewrite Hprinted. do 2 f_equal.
      rewrite !fmap_app, fmap_cons, !filter_app. cbn [fst].
      by rewrite filter_cons_False.
    + intros n t Hnt Hn. rewrite (restore_loaded _ _ Hread). cbn [fst].
      rewrite objects_apply_effects.
      apply assigned_plan_restores; try done.
      * by apply read_state_NoDup in Hread.
      * by apply Hsub.
      * by apply elem_of_dom.
Qed.

(** C4: running the script a second time, on the world the first run left,
    leaves every object as the first run left it: the state file is the same,
    the registry is the same, and the second run ends as the first did. *)
Theorem restore_idempotent (w : world) :
  let once := restore_assembled_state json_decode w in
  let twice := restore_assembled_state json_decode once.1 in
  fs once.1 = fs w /\
  bpy_data_objects twice.1 = bpy_data_objects once.1 /\
  twice.2 = once.2.
Proof.
  cbv zeta. split; [apply restore_fs|].
  pose proof (script_effects_ext (restore_assembled_state json_decode w).1 w)
    as Hsame.
  rewrite restore_fs, restore_dom in Hsame. specialize (Hsame eq_refl eq_refl).
  rewrite (restore_script_effects (_.1)), Hsame. cbn [fst snd].
  rewrite restore_script_effects. cbn [fst snd].
  rewrite !objects_apply_effects. split; [apply assigned_idempotent | done].
Qed.

(** C5: when the state file is there and its text is not well-formed JSON, the
    decoder's error leaves the script as it is raised: the run ends in
    JSONDecodeError with the world untouched, no entry applied. *)
Theorem restore_malformed_json (w : world) (text : string) :
  fs w !! state_path = Some (RegularFile text) ->
  json_decode text = None ->
  restore_assembled_state json_decode w = (w, Raised JSONDecodeError).
Proof.
  intros Hfs Hjson. rewrite restore_script_effects.
  unfold script_effects. by rewrite Hfs, Hjson.
Qed.


(** C7: when the state file holds the empty JSON object, the script returns
    normally and leaves the world as it was: no object is assigned to and no
    line is printed. *)
Theorem restore_empty_object (w : world) (text : string) :
  fs w !! state_path = Some (RegularFile text) ->
  json_decode text = Some (JObject []) ->
  restore_assembled_state json_decode w = (w, Returned tt).
Proof.
  intros Hfs Hjson. rewrite restore_script_effects.
  unfold script_effects. rewrite Hfs, Hjson. by destruct w.
Qed.

(** C8: on a SavedState, the script returns nothing ([tt], Python's None) and
    the lines it prints are the reports of the entries whose name the registry
    knows, one each, in the order of the mapping. *)
Theorem restore_reports_matched (w : world) (kvs : list (string * pyval num)) :
  read_state json_decode w = Some kvs ->
  (forall name transforms,
      (name, transforms) ∈ kvs -> is_Some (bpy_data_objects w !! name) ->
      well_shaped transforms = true) ->
  (restore_assembled_state json_decode w).2 = Returned tt /\
  stdout (restore_assembled_state json_decode w).1 =
    stdout w ++ (restored_line <$> filter (.∈ dom (bpy_data_objects w)) kvs.*1).
Proof.
  intros Hread Hall.
  assert ((restore_assembled_state json_decode w).2 = Returned tt) as Hret.
  { rewrite (restore_loaded _ _ Hread). apply plan_returned.
    intros name transforms Hin Hknown. apply (Hall name); [done|].
    by apply elem_of_dom. }
  split; [done|].
  destruct (restore_reports_prefix w kvs Hread) as (done & rest & -> & Hout & Hrest).
  rewrite (Hrest Hret), app_nil_r in *. done.
Qed.

(** C9: whatever the state holds, the registry keeps its set of names, every
    object keeps the data the host stores beside the three transforms, and an
    object whose name is not a key of the state is left exactly as it was. *)
Theorem restore_frame (w : world) (kvs : list (string * pyval num)) :
  read_state json_decode w = Some kvs ->
  dom (bpy_data_objects (restore_assembled_state json_decode w).1) =
    dom (bpy_data_objects w) /\
  forall name o,
    bpy_data_objects w !! name = Some o ->
    exists o',
      bpy_data_objects (restore_assembled_state json_decode w).1 !! name = Some o' /\
      host_data o' = host_data o /\
      (name ∉ kvs.*1 -> o' = o).
Proof.
  intros Hread. split; [apply restore_dom|]. intros name o Ho.
  rewrite (restore_loaded _ _ Hread). cbn [fst]. rewrite objects_apply_effects.
  pose proof (assigned_host_data (plan (dom (bpy_data_objects w)) kvs).1
                (bpy_data_objects w) name) as Hhost.
  rewrite Ho in Hhost.
  destruct (assigned _ _ !! name) as [o'|] eqn:Ho'; [|done].
  exists o'. split; [done|]. split; [by injection Hhost|].
  intros Hkey. rewrite assigned_untargeted in Ho'; [congruence|].
  intros Ht. by apply targets_plan in Ht.
Qed.

(** C10: the final registry, the way the run ends and the lines it prints are
    determined by what is at the state path and by the registry at the start:
    two runs that agree on these agree on all three, whatever else differs
    in the file system or on the console. *)
Theorem restore_deterministic (w1 w2 : world) :
  fs w1 !! state_path = fs w2 !! state_path ->
  bpy_data_objects w1 = bpy_data_objects w2 ->
  bpy_data_objects (restore_assembled_state json_decode w1).1 =
    bpy_data_objects (restore_assembled_state json_decode w2).1 /\
  (restore_assembled_state json_decode w1).2 =
    (restore_assembled_state json_decode w2).2 /\
  exists printed,
    stdout (restore_assembled_state json_decode w1).1 = stdout w1 ++ printed /\
    stdout (restore_assembled_state json_decode w2).1 = stdout w2 ++ printed.
Proof.
  intros Hfs Hobjs. rewrite !restore_script_effects. cbn [fst snd].
  rewrite (script_effects_ext w1 w2) by (by rewrite ?Hobjs).
  rewrite !objects_apply_effects, Hobjs. split_and!; [done..|].
  eexists. by rewrite !stdout_apply_effects.
Qed.

(** ** Further properties of the script *)

Lemma plan_app (known : gset string) (kvs1 kvs2 : list (string * pyval num)) :
  (plan known kvs1).2 = Returned tt ->
  plan known (kvs1 ++ kvs2) =
  ((plan known kvs1).1 ++ (plan known kvs2).1, (plan known kvs2).2).
Proof.
  induction kvs1 as [|[name transforms] kvs1 IH]; intros Hret.
  { cbn. by destruct (plan known kvs2). }
  cbn [app plan] in *. destruct (decide (name ∈ known)) as [Hin|Hout]; [|by auto].
  destruct (entry_effects name transforms) as [es [[]|e]]; [|done].
  cbn [fst snd] in *. rewrite (IH Hret). cbn [fst snd]. by rewrite app_assoc.
Qed.

(** Whatever follows a record of the wrong shape on a matched object plays no
    part in the run. *)
Lemma plan_truncate (known : gset string) (name : string) (transforms : pyval num)
    (before after : list (string * pyval num)) :
  name ∈ known -> well_shaped transforms = false ->
  plan known (before ++ (name, transforms) :: after) =
  plan known (before ++ [(name, transforms)]).
Proof.
  intros Hin Hshape.
  destruct (entry_effects_ill_shaped name transforms Hshape) as (es & e & Hentry & _).
  induction before as [|[n t] before IH].
  - cbn [app]. rewrite !plan_cons_known by done. by rewrite Hentry.
  - cbn [app plan]. by rewrite IH.
Qed.

Lemma plan_unknown (known : gset string) (kvs : list (string * pyval num)) :
  (forall name, name ∈ kvs.*1 -> name ∉ known) ->
  plan known kvs = ([], Returned tt).
Proof.
  induction kvs as [|[name transforms] kvs IH]; intros Hnone; [done|].
  rewrite plan_cons_unknown by (apply Hnone, list_elem_of_here).
  apply IH. intros n Hn. apply Hnone. by apply list_elem_of_further.
Qed.

(** X1: a directory at the state path passes the existence check and cannot
    be opened: the run ends in IsADirectoryError with the world untouched. *)
Theorem restore_directory_at_path (w : world) :
  fs w !! state_path = Some Directory ->
  restore_assembled_state json_decode w = (w, Raised IsADirectoryError).
Proof.
  intros Hfs. rewrite restore_script_effects.
  unfold script_effects. by rewrite Hfs.
Qed.

(** X2: when the state file decodes to anything but an object (a list, a
    string, a number, a boolean, null), the run ends in AttributeError with
    the world untouched. *)
Theorem restore_not_an_object (w : world) (text : string) (j : json num) :
  fs w !! state_path = Some (RegularFile text) ->
  json_decode text = Some j ->
  (forall members, j <> JObject members) ->
  restore_assembled_state json_decode w = (w, Raised AttributeError).
Proof.
  intros Hfs Hjson Hnot. rewrite restore_script_effects.
  unfold script_effects. rewrite Hfs, Hjson.
  destruct j as [| | | | |members]; try done. by destruct (Hnot members).
Qed.

(** X3: when the registry knows none of the names of the state, the run
    returns normally and leaves the world as it was, whatever the records
    look like. *)
Theorem restore_no_match (w : world) (kvs : list (string * pyval num)) :
  read_state json_decode w = Some kvs ->
  (forall name, name ∈ kvs.*1 -> bpy_data_objects w !! name = None) ->
  restore_assembled_state json_decode w = (w, Returned tt).
Proof.
  intros Hread Hnone. rewrite (restore_loaded _ _ Hread).
  rewrite plan_unknown; [by destruct w|].
  intros name Hin. apply not_elem_of_dom. by apply Hnone.
Qed.

(** X4: the run stops at a record of the wrong shape on a matched object: it
    is the run of the loop over the state cut after that entry, and it ends
    in an exception.  The entries after it are never looked at. *)
Theorem restore_stops_at_ill_shaped (w : world) (before after : list (string * pyval num))
    (name : string) (transforms : pyval num) :
  read_state json_decode w = Some (before ++ (name, transforms) :: after) ->
  is_Some (bpy_data_objects w !! name) ->
  well_shaped transforms = false ->
  restore_assembled_state json_decode w =
    for_each (before ++ [(name, transforms)]) restore_entry w /\
  exists e, (restore_assembled_state json_decode w).2 = Raised e.
Proof.
  intros Hread Hknown Hshape. apply elem_of_dom in Hknown as Hin.
  rewrite (restore_loaded _ _ Hread), for_each_plan.
  rewrite plan_truncate by done. split; [done|]. cbn [snd].
  apply (plan_raised _ _ name transforms); [|done..].
  apply elem_of_app. right. apply list_elem_of_here.
Qed.

(** X5: nothing is rolled back.  When the first record of the wrong shape has
    a good location and its rotation_euler fails with [e], the run raises
    [e] and the object keeps the new location, with the rotation and the
    scale it had. *)
Theorem restore_partial_assignment (w : world) (before after : list (string * pyval num))
    (name : string) (transforms : pyval num) (o : SceneObject num HostData)
    (l : vec3 num) (e : exn) :
  read_state json_decode w = Some (before ++ (name, transforms) :: after) ->
  (forall n t,
      (n, t) ∈ before -> is_Some (bpy_data_objects w !! n) -> well_shaped t = true) ->
  bpy_data_objects w !! name = Some o ->
  field_value transforms "location" = inr l ->
  field_value transforms "rotation_euler" = inl e ->
  (restore_assembled_state json_decode w).2 = Raised e /\
  bpy_data_objects (restore_assembled_state json_decode w).1 !! name =
    Some (mkSceneObject l (rotation_euler o) (scale o) (host_data o)).
Proof.
  intros Hread Hbefore Ho Hloc Hrot.
  pose proof (read_state_NoDup _ _ Hread) as Hnodup.
  rewrite fmap_app, fmap_cons in Hnodup. cbn [fst] in Hnodup.
  apply NoDup_app in Hnodup as (_ & Hfresh & _).
  assert (name ∉ before.*1) as Hnot.
  { intros Hin. apply (Hfresh name Hin), list_elem_of_here. }
  assert (name ∈ dom (bpy_data_objects w)) as Hin by (apply elem_of_dom; eauto).
  assert (entry_effects name transforms = ([Assign name Location l], Raised e))
    as Hentry.
  { unfold entry_effects. by rewrite Hloc, Hrot. }
  rewrite (restore_loaded _ _ Hread). cbn [fst snd].
  rewrite plan_app.
  2:{ apply plan_returned. intros n t Hnt Hn. apply (Hbefore n t Hnt).
      by apply elem_of_dom. }
  rewrite plan_cons_known, Hentry by done. cbn [fst snd].
  split; [done|].
  rewrite objects_apply_effects, assigned_app.
  cbn. rewrite lookup_alter_eq.
  rewrite assigned_untargeted by (intros Ht; by apply targets_plan in Ht).
  by rewrite Ho.
Qed.

(** *** Dictionaries: storing and looking up *)

Lemma dict_get_setitem_eq {V : Type} (d : list (string * V)) (k : string) (v : V) :
  dict_get (dict_setitem d k v) k = Some v.
Proof.
  induction d as [|[k' v'] d IH]; cbn.
  - by rewrite decide_True.
  - destruct (decide (k' = k)) as [->|Hne]; cbn.
    + by rewrite decide_True.
    + by rewrite decide_False.
Qed.

Lemma dict_get_setitem_ne {V : Type} (d : list (string * V)) (k k' : string) (v : V) :
  k <> k' -> dict_get (dict_setitem d k v) k' = dict_get d k'.
Proof.
  intros Hne. induction d as [|[k0 v0] d IH]; cbn.
  - by rewrite decide_False.
  - destruct (decide (k0 = k)) as [->|Hk0]; cbn.
    + by rewrite !decide_False.
    + by rewrite IH.
Qed.

Lemma dict_get_snoc {V : Type} (d : list (string * V)) (k k' : string) (v : V) :
  dict_get (d ++ [(k, v)]) k' =
  match dict_get d k' with
  | Some x => Some x
  | None => if decide (k = k') then Some v else None
  end.
Proof.
  induction d as [|[k0 v0] d IH]; [done|].
  cbn. by destruct (decide (k0 = k')).
Qed.

Lemma dict_get_fold_setitem {V : Type} (pairs d : list (string * V)) (k : string) :
  dict_get (fold_left (fun d kv => dict_setitem d kv.1 kv.2) pairs d) k =
  match dict_get (reverse pairs) k with
  | Some v => Some v
  | None => dict_get d k
  end.
Proof.
  revert d. induction pairs as [|[k0 v0] pairs IH]; intros d; [done|].
  cbn [fold_left fst snd]. rewrite IH, reverse_cons, dict_get_snoc.
  destruct (dict_get (reverse pairs) k) as [x|]; [done|].
  destruct (decide (k0 = k)) as [->|Hne].
  - apply dict_get_setitem_eq.
  - by apply dict_get_setitem_ne.
Qed.

(** In the dict built from a list of pairs, a key holds the value of its last
    pair. *)
Lemma dict_get_of_pairs {V : Type} (pairs : list (string * V)) (k : string) :
  dict_get (dict_of_pairs pairs) k = dict_get (reverse pairs) k.
Proof.
  unfold dict_of_pairs. rewrite dict_get_fold_setitem.
  by destruct (dict_get (reverse pairs) k).
Qed.

Lemma dict_get_fmap {V W : Type} (f : V -> W) (d : list (string * V)) (k : string) :
  dict_get (map (fun m => (m.1, f m.2)) d) k = f <$> dict_get d k.
Proof.
  induction d as [|[k0 v0] d IH]; [done|].
  cbn. by destruct (decide (k0 = k)).
Qed.

Lemma dict_get_elem_of {V : Type} (d : list (string * V)) (k : string) (v : V) :
  dict_get d k = Some v -> (k, v) ∈ d.
Proof.
  induction d as [|[k0 v0] d IH]; [done|].
  cbn. destruct (decide (k0 = k)) as [->|Hne].
  - intros [= ->]. apply list_elem_of_here.
  - intros Hget. by apply list_elem_of_further, IH.
Qed.

Lemma elem_of_dict_get {V : Type} (d : list (string * V)) (k : string) (v : V) :
  NoDup d.*1 -> (k, v) ∈ d -> dict_get d k = Some v.
Proof.
  induction d as [|[k0 v0] d IH]; intros Hnodup Hin.
  { by apply elem_of_nil in Hin. }
  rewrite fmap_cons in Hnodup. cbn [fst] in Hnodup.
  apply NoDup_cons in Hnodup as [Hfresh Hnodup].
  cbn. apply elem_of_cons in Hin as [[= -> ->]|Hin].
  - by rewrite decide_True.
  - rewrite decide_False; [by apply IH|].
    intros ->. apply Hfresh. by apply (list_elem_of_fmap_2 fst) in Hin.
Qed.

(** The state the script reads, from the members of the document. *)
Lemma read_state_members (w : world) (text : string)
    (members : list (string * json num)) :
  fs w !! state_path = Some (RegularFile text) ->
  json_decode text = Some (JObject members) ->
  read_state json_decode w =
  Some (dict_of_pairs (map (fun m => (m.1, to_py m.2)) members)).
Proof. intros Hfs Hjson. unfold read_state. by rewrite Hfs, Hjson. Qed.

Lemma dict_get_reverse_map {V W : Type} (f : V -> W) (d : list (string * V))
    (k : string) :
  dict_get (reverse (map (fun m => (m.1, f m.2)) d)) k = f <$> dict_get (reverse d) k.
Proof.
  rewrite <- dict_get_fmap. f_equal.
  induction d as [|m d IH]; [done|].
  cbn [map]. by rewrite !reverse_cons, IH, map_app.
Qed.

(** X6: when the document repeats a name, the record of its last occurrence
    is the one applied.  With every record that is last for a matched name
    well-shaped, the run returns normally and a matched object holds the three
    triples of the last record under its name. *)
Theorem restore_repeated_name (w : world) (text : string)
    (members : list (string * json num)) (name : string) (j : json num) :
  fs w !! state_path = Some (RegularFile text) ->
  json_decode text = Some (JObject members) ->
  (forall n j',
      dict_get (reverse members) n = Some j' ->
      is_Some (bpy_data_objects w !! n) -> well_shaped (to_py j') = true) ->
  dict_get (reverse members) name = Some j ->
  is_Some (bpy_data_objects w !! name) ->
  (restore_assembled_state json_decode w).2 = Returned tt /\
  exists o,
    bpy_data_objects (restore_assembled_state json_decode w).1 !! name = Some o /\
    record_field (to_py j) "location" = Some (location o) /\
    record_field (to_py j) "rotation_euler" = Some (rotation_euler o) /\
    record_field (to_py j) "scale" = Some (scale o).
Proof.
  intros Hfs Hjson Hall Hlast Hknown.
  pose proof (read_state_members w text members Hfs Hjson) as Hread.
  pose proof (read_state_NoDup _ _ Hread) as Hnodup.
  set (kvs := dict_of_pairs (map (fun m => (m.1, to_py m.2)) members)) in *.
  assert ((plan (dom (bpy_data_objects w)) kvs).2 = Returned tt) as Hret.
  { apply plan_returned. intros n t Hnt Hn.
    apply (elem_of_dict_get _ _ _ Hnodup) in Hnt.
    unfold kvs in Hnt. rewrite dict_get_of_pairs, dict_get_reverse_map in Hnt.
    destruct (dict_get (reverse members) n) as [j'|] eqn:Hj'; [|done].
    injection Hnt as <-. apply (Hall n j' Hj'). by apply elem_of_dom. }
  rewrite (restore_loaded _ _ Hread). cbn [fst snd]. split; [done|].
  rewrite objects_apply_effects.
  apply assigned_plan_restores; try done; [|by apply elem_of_dom].
  apply dict_get_elem_of. unfold kvs.
  by rewrite dict_get_of_pairs, dict_get_reverse_map, Hlast.
Qed.

(** X7: a key of a record other than location, rotation_euler and scale is
    ignored: storing one in the record changes nothing in what the loop body
    does with it. *)
Theorem restore_entry_extra_key (name : string) (d : list (string * pyval num))
    (k : string) (v : pyval num) (w : world) :
  k ∉ ["location"; "rotation_euler"; "scale"] ->
  restore_entry (name, PyDict (dict_setitem d k v)) w =
  restore_entry (name, PyDict d) w.
Proof.
  intros Hk. rewrite !not_elem_of_cons in Hk. destruct Hk as (Hl & Hr & Hs & _).
  destruct (bpy_data_objects w !! name) as [o|] eqn:Ho.
  - rewrite !restore_entry_present by eauto.
    unfold entry_effects, field_value.
    by rewrite !dict_get_setitem_ne by done.
  - by rewrite !restore_entry_absent.
Qed.

(** X8: no object is reported twice in one run: the lines a run prints are
    pairwise distinct, and each is the report of a key of the state that the
    registry knows. *)
Theorem restore_reports_distinct (w : world) (kvs : list (string * pyval num)) :
  read_state json_decode w = Some kvs ->
  exists printed,
    stdout (restore_assembled_state json_decode w).1 = stdout w ++ printed /\
    NoDup printed /\
    forall line,
      line ∈ printed ->
      exists name,
        line = restored_line name /\ name ∈ kvs.*1 /\
        is_Some (bpy_data_objects w !! name).
Proof.
  intros Hread. pose proof (read_state_NoDup _ _ Hread) as Hnodup.
  destruct (restore_reports_prefix w kvs Hread) as (done & rest & -> & Hout & _).
  eexists. split; [exact Hout|]. rewrite fmap_app in Hnodup.
  apply NoDup_app in Hnodup as (Hdone & _ & _). split.
  - unfold restored_line. apply (NoDup_fmap_2 _). by apply NoDup_filter.
  - intros line (name & -> & Hname)%list_elem_of_fmap.
    apply list_elem_of_filter in Hname as [Hknown Hname].
    exists name. split_and!; [done| |by apply elem_of_dom].
    rewrite fmap_app. apply elem_of_app. by left.
Qed.

(** X9: the order of the entries does not matter to the scene.  Two runs from
    the same registry on states with the same entries in different orders,
    the records of matched objects well-shaped, both return normally and
    leave the same registry. *)
Theorem restore_order_irrelevant (w1 w2 : world) (kvs1 kvs2 : list (string * pyval num)) :
  read_state json_decode w1 = Some kvs1 ->
  read_state json_decode w2 = Some kvs2 ->
  bpy_data_objects w1 = bpy_data_objects w2 ->
  kvs1 ≡ₚ kvs2 ->
  (forall name transforms,
      (name, transforms) ∈ kvs1 -> is_Some (bpy_data_objects w1 !! name) ->
      well_shaped transforms = true) ->
  (restore_assembled_state json_decode w1).2 = Returned tt /\
  (restore_assembled_state json_decode w2).2 = Returned tt /\
  bpy_data_objects (restore_assembled_state json_decode w1).1 =
    bpy_data_objects (restore_assembled_state json_decode w2).1.
Proof.
  intros Hread1 Hread2 Hobjs Hperm Hall.
  pose proof (read_state_NoDup _ _ Hread1) as Hnodup1.
  pose proof (read_state_NoDup _ _ Hread2) as Hnodup2.
  rewrite (restore_loaded _ _ Hread1), (restore_loaded _ _ Hread2). cbn [fst snd].
  rewrite !objects_apply_effects, <- Hobjs.
  set (objs := bpy_data_objects w1) in *.
  assert ((plan (dom objs) kvs1).2 = Returned tt) as Hret1.
  { apply plan_returned. intros n t Hnt Hn. apply (Hall n t Hnt).
    by apply elem_of_dom. }
  assert ((plan (dom objs) kvs2).2 = Returned tt) as Hret2.
  { apply plan_returned. intros n t Hnt Hn. apply (Hall n t).
    - by rewrite Hperm.
    - by apply elem_of_dom. }
  split_and!; [done..|]. apply map_eq. intros name.
  destruct (objs !! name) as [o|] eqn:Ho.
  2:{ transitivity (@None (SceneObject num HostData)); [|symmetry];
        apply not_elem_of_dom; rewrite dom_assigned; by apply not_elem_of_dom. }
  destruct (decide (name ∈ kvs1.*1)) as [Hkey|Hkey].
  - apply list_elem_of_fmap in Hkey as ([n t] & -> & Hnt). cbn [fst] in *.
    assert (n ∈ dom objs) as Hn by (apply elem_of_dom; eauto).
    destruct (assigned_plan_restores (dom objs) kvs1 objs eq_refl Hnodup1 Hret1
                n t Hnt Hn) as (o1 & Ho1 & Hl1 & Hr1 & Hs1).
    assert ((n, t) ∈ kvs2) as Hnt2 by by rewrite <- Hperm.
    destruct (assigned_plan_restores (dom objs) kvs2 objs eq_refl Hnodup2 Hret2
                n t Hnt2 Hn) as (o2 & Ho2 & Hl2 & Hr2 & Hs2).
    pose proof (assigned_host_data (plan (dom objs) kvs1).1 objs n) as Hd1.
    pose proof (assigned_host_data (plan (dom objs) kvs2).1 objs n) as Hd2.
    rewrite Ho1, Ho in Hd1. rewrite Ho2, Ho in Hd2.
    rewrite Ho1, Ho2. f_equal.
    destruct o1, o2. cbn in *. congruence.
  - assert (name ∉ kvs2.*1) as Hkey2 by by rewrite <- Hperm.
    rewrite !assigned_untargeted; [done|..]; intros Ht; by apply targets_plan in Ht.
Qed.

(** X10: when the location of the first record of the wrong shape fails with
    [e] (the record is not an object: TypeError; it has no location:
    KeyError; the host refuses the value), the run raises [e] with the object
    untouched, and the lines printed are the reports of the entries before
    it. *)
Theorem restore_fails_on_location (w : world) (before after : list (string * pyval num))
    (name : string) (transforms : pyval num) (o : SceneObject num HostData) (e : exn) :
  read_state json_decode w = Some (before ++ (name, transforms) :: after) ->
  (forall n t,
      (n, t) ∈ before -> is_Some (bpy_data_objects w !! n) -> well_shaped t = true) ->
  bpy_data_objects w !! name = Some o ->
  field_value transforms "location" = inl e ->
  (restore_assembled_state json_decode w).2 = Raised e /\
  bpy_data_objects (restore_assembled_state json_decode w).1 !! name = Some o /\
  stdout (restore_assembled_state json_decode w).1 =
    stdout w ++ (restored_line <$> filter (.∈ dom (bpy_data_objects w)) before.*1).
Proof.
  intros Hread Hbefore Ho Hloc.
  pose proof (read_state_NoDup _ _ Hread) as Hnodup.
  rewrite fmap_app, fmap_cons in Hnodup. cbn [fst] in Hnodup.
  apply NoDup_app in Hnodup as (_ & Hfresh & _).
  assert (name ∉ before.*1) as Hnot.
  { intros Hin. apply (Hfresh name Hin), list_elem_of_here. }
  assert (name ∈ dom (bpy_data_objects w)) as Hin by (apply elem_of_dom; eauto).
  assert (entry_effects name transforms = ([], Raised e)) as Hentry.
  { unfold entry_effects. by rewrite Hloc. }
  assert ((plan (dom (bpy_data_objects w)) before).2 = Returned tt) as Hret.
  { apply plan_returned. intros n t Hnt Hn. apply (Hbefore n t Hnt).
    by apply elem_of_dom. }
  rewrite (restore_loaded _ _ Hread). cbn [fst snd].
  rewrite (plan_app _ _ _ Hret), plan_cons_known, Hentry by done. cbn [fst snd].
  rewrite app_nil_r. split_and!; [done| |].
  - rewrite objects_apply_effects.
    rewrite assigned_untargeted by (intros Ht; by apply targets_plan in Ht). done.
  - rewrite stdout_apply_effects. f_equal.
    destruct (said_plan (dom (bpy_data_objects w)) before)
      as (done & rest & Hsplit & Hsaid & Hrest).
    rewrite (Hrest Hret), app_nil_r in Hsplit. by subst done.
Qed.

(** X11: after a record of the wrong shape on a matched object, the objects
    named further on in the state are not restored: an object that is neither
    the failing one nor named before it is left as it was. *)
Theorem restore_leaves_later_entries (w : world) (before after : list (string * pyval num))
    (name other : string) (transforms : pyval num) :
  read_state json_decode w = Some (before ++ (name, transforms) :: after) ->
  is_Some (bpy_data_objects w !! name) ->
  well_shaped transforms = false ->
  other ∉ before.*1 -> other <> name ->
  bpy_data_objects (restore_assembled_state json_decode w).1 !! other =
  bpy_data_objects w !! other.
Proof.
  intros Hread Hknown Hshape Hbefore Hne. apply elem_of_dom in Hknown.
  rewrite (restore_loaded _ _ Hread). cbn [fst].
  rewrite plan_truncate, objects_apply_effects by done.
  apply assigned_untargeted. intros Ht. apply targets_plan in Ht.
  rewrite fmap_app in Ht. apply elem_of_app in Ht as [Ht|Ht]; [done|].
  by apply list_elem_of_singleton in Ht.
Qed.

End properties.

(** * The script on the example worlds *)

(** A repeated name keeps its first place and its last value. *)
Example to_py_repeated_name :
  to_py (JObject [("a", JNumber 1%Z); ("b", JNumber 2%Z); ("a", JNumber 3%Z)]) =
  PyDict [("a", PyNum 3%Z); ("b", PyNum 2%Z)].
Proof. reflexivity. Qed.

(** The last example of the specification: Obj1 sits elsewhere and is moved to
    the saved place. *)
Example restore_obj1 :
  restore_assembled_state demo_decode (world_with obj1_text) =
  (mkWorld {[ state_path := RegularFile obj1_text ]}
     (<["Obj1" := mkSceneObject (1, 2, 3)%Z (0, 0, 0)%Z (1, 1, 1)%Z "MESH"]> demo_scene)
     ["Restored Obj1"],
   Returned tt).
Proof. vm_compute. reflexivity. Qed.

(** Ghost is passed over, Obj2 after it is restored, Camera is left alone. *)
Example restore_lamp :
  restore_assembled_state demo_decode (world_with lamp_text) =
  (mkWorld {[ state_path := RegularFile lamp_text ]}
     {[ "Obj1" := mkSceneObject (1, 2, 3)%Z (0, 0, 0)%Z (1, 1, 1)%Z "MESH";
        "Obj2" := mkSceneObject (0, 0, 5)%Z (0, 0, 1)%Z (2, 2, 2)%Z "MESH";
        "Camera" := camera ]}
     ["Restored Obj1"; "Restored Obj2"],
   Returned tt).
Proof. vm_compute. reflexivity. Qed.

(** Without a scale the first two assignments are made, then the lookup
    fails: nothing is reported and the scale stays. *)
Example restore_noscale :
  restore_assembled_state demo_decode (world_with noscale_text) =
  (mkWorld {[ state_path := RegularFile noscale_text ]}
     (<["Obj1" := mkSceneObject (1, 2, 3)%Z (0, 0, 0)%Z (7, 7, 7)%Z "MESH"]> demo_scene)
     [],
   Raised (KeyError "scale")).
Proof. vm_compute. reflexivity. Qed.

(** A directory at the state path exists, and cannot be opened. *)
Example restore_directory :
  restore_assembled_state demo_decode
    (mkWorld {[ state_path := Directory ]} demo_scene []) =
  (mkWorld {[ state_path := Directory ]} demo_scene [], Raised IsADirectoryError).
Proof. vm_compute. reflexivity. Qed.

(** The line printed for a missing state file names the path. *)
Example missing_line_text :
  missing_line =
  "Error: /Users/andresguarnizo/Projects/Personal_Website/lamp_assembled_state.json not found.".
Proof. reflexivity. Qed.

(** A second run reports again and moves nothing. *)
Example restore_lamp_twice :
  restore_assembled_state demo_decode
    (restore_assembled_state demo_decode (world_with lamp_text)).1 =
  (mkWorld {[ state_path := RegularFile lamp_text ]}
     {[ "Obj1" := mkSceneObject (1, 2, 3)%Z (0, 0, 0)%Z (1, 1, 1)%Z "MESH";
        "Obj2" := mkSceneObject (0, 0, 5)%Z (0, 0, 1)%Z (2, 2, 2)%Z "MESH";
        "Camera" := camera ]}
     ["Restored Obj1"; "Restored Obj2"; "Restored Obj1"; "Restored Obj2"],
   Returned tt).
Proof. vm_compute. reflexivity. Qed.

(** A list at top level has no items to iterate over. *)
Example restore_top_level_list :
  restore_assembled_state demo_decode (world_with "[]") =
  (world_with "[]", Raised AttributeError).
Proof. vm_compute. reflexivity. Qed.

(** ** The claims on the example worlds *)

(** C1 on the specification's example: Obj1 takes the saved transforms. *)
Lemma restore_assigns_records_witness :
  (restore_assembled_state demo_decode (world_with obj1_text)).2 = Returned tt /\
  forall name transforms,
    (name, transforms) ∈ obj1_state ->
    exists o,
      bpy_data_objects (restore_assembled_state demo_decode (world_with obj1_text)).1
        !! name = Some o /\
      record_field transforms "location" = Some (location o) /\
      record_field transforms "rotation_euler" = Some (rotation_euler o) /\
      record_field transforms "scale" = Some (scale o).
Proof.
  apply (restore_assigns_records demo_decode (world_with obj1_text) obj1_state).
  - vm_compute. reflexivity.
  - intros name transforms Hin.
    apply list_elem_of_singleton in Hin. injection Hin as -> ->.
    split; [exists obj1_before|]; vm_compute; reflexivity.
Defined.

(** C2 on the scene with no state file. *)
Lemma restore_missing_file_witness :
  restore_assembled_state demo_decode world_without =
  (mkWorld ∅ demo_scene [missing_line], Returned tt).
Proof.
  apply (restore_missing_file demo_decode world_without).
  vm_compute. reflexivity.
Defined.

(** C3 on the three-entry state: Ghost, between Obj1 and Obj2, is unknown and
    its record is empty; Obj1 before it and Obj2 after it are restored and
    reported. *)
Lemma restore_skips_unknown_witness :
  (restore_assembled_state demo_decode (world_with lamp_text) =
     for_each (obj1_state ++ [obj2_entry]) restore_entry (world_with lamp_text) /\
   restore_entry ("Ghost", PyDict []) (world_with lamp_text) =
     (world_with lamp_text, Returned tt) /\
   dom (bpy_data_objects (restore_assembled_state demo_decode (world_with lamp_text)).1) =
     dom (bpy_data_objects (world_with lamp_text)) /\
   size (bpy_data_objects (restore_assembled_state demo_decode (world_with lamp_text)).1) =
     size (bpy_data_objects (world_with lamp_text))) /\
  (restore_assembled_state demo_decode (world_with lamp_text)).2 = Returned tt /\
  stdout (restore_assembled_state demo_decode (world_with lamp_text)).1 =
    stdout (world_with lamp_text) ++
    (restored_line <$>
       filter (.∈ dom (bpy_data_objects (world_with lamp_text)))
         (obj1_state ++ [obj2_entry]).*1) /\
  forall n t,
    (n, t) ∈ obj1_state ++ [obj2_entry] ->
    is_Some (bpy_data_objects (world_with lamp_text) !! n) ->
    exists o,
      bpy_data_objects (restore_assembled_state demo_decode (world_with lamp_text)).1
        !! n = Some o /\
      record_field t "location" = Some (location o) /\
      record_field t "rotation_euler" = Some (rotation_euler o) /\
      record_field t "scale" = Some (scale o).
Proof.
  destruct (restore_skips_unknown demo_decode (world_with lamp_text)
              obj1_state [obj2_entry] "Ghost" (PyDict []))
    as (Hrun & Hbody & Hdom & Hsize & Hothers).
  - vm_compute. reflexivity.
  - vm_compute. reflexivity.
  - split; [by split_and!|]. apply Hothers.
    intros n t Hin _.
    apply elem_of_cons in Hin as [Hin|Hin]; [by injection Hin as -> ->|].
    apply list_elem_of_singleton in Hin. by injection Hin as -> ->.
Defined.

(** C5 on a state file cut short. *)
Lemma restore_malformed_json_witness :
  restore_assembled_state demo_decode (world_with truncated_text) =
  (world_with truncated_text, Raised JSONDecodeError).
Proof.
  apply (restore_malformed_json demo_decode (world_with truncated_text) truncated_text).
  - vm_compute. reflexivity.
  - vm_compute. reflexivity.
Defined.


(** C7 on the empty object. *)
Lemma restore_empty_object_witness :
  restore_assembled_state demo_decode (world_with "{}") = (world_with "{}", Returned tt).
Proof.
  apply (restore_empty_object demo_decode (world_with "{}") "{}").
  - vm_compute. reflexivity.
  - vm_compute. reflexivity.
Defined.

(** C8 on the three-entry state: Ghost's empty record does not matter, the
    registry does not know the name. *)
Lemma restore_reports_matched_witness :
  (restore_assembled_state demo_decode (world_with lamp_text)).2 = Returned tt /\
  stdout (restore_assembled_state demo_decode (world_with lamp_text)).1 =
    stdout (world_with lamp_text) ++
    (restored_line <$>
       filter (.∈ dom (bpy_data_objects (world_with lamp_text))) lamp_state.*1).
Proof.
  apply (restore_reports_matched demo_decode (world_with lamp_text) lamp_state).
  - vm_compute. reflexivity.
  - intros name transforms Hin Hknown.
    apply elem_of_cons in Hin as [Hin|Hin]; [by injection Hin as -> ->|].
    apply elem_of_cons in Hin as [Hin|Hin].
    { injection Hin as -> ->. destruct Hknown as [o Ho]. vm_compute in Ho. done. }
    apply list_elem_of_singleton in Hin. by injection Hin as -> ->.
Defined.

(** C9 on the three-entry state; Camera is not among its keys. *)
Lemma restore_frame_witness :
  dom (bpy_data_objects (restore_assembled_state demo_decode (world_with lamp_text)).1) =
    dom (bpy_data_objects (world_with lamp_text)) /\
  forall name o,
    bpy_data_objects (world_with lamp_text) !! name = Some o ->
    exists o',
      bpy_data_objects (restore_assembled_state demo_decode (world_with lamp_text)).1
        !! name = Some o' /\
      host_data o' = host_data o /\
      (name ∉ lamp_state.*1 -> o' = o).
Proof.
  apply (restore_frame demo_decode (world_with lamp_text) lamp_state).
  vm_compute. reflexivity.
Defined.

(** C10 on two worlds that differ in another file and in earlier output. *)
Lemma restore_deterministic_witness :
  bpy_data_objects (restore_assembled_state demo_decode (world_with lamp_text)).1 =
    bpy_data_objects (restore_assembled_state demo_decode (busy_world lamp_text)).1 /\
  (restore_assembled_state demo_decode (world_with lamp_text)).2 =
    (restore_assembled_state demo_decode (busy_world lamp_text)).2 /\
  exists printed,
    stdout (restore_assembled_state demo_decode (world_with lamp_text)).1 =
      stdout (world_with lamp_text) ++ printed /\
    stdout (restore_assembled_state demo_decode (busy_world lamp_text)).1 =
      stdout (busy_world lamp_text) ++ printed.
Proof.
  apply (restore_deterministic demo_decode (world_with lamp_text) (busy_world lamp_text)).
  - vm_compute. reflexivity.
  - reflexivity.
Defined.

(** ** The further properties on the example worlds *)

(** X1 on the scene with a directory where the state file should be. *)
Lemma restore_directory_at_path_witness :
  restore_assembled_state demo_decode
    (mkWorld {[ state_path := Directory ]} demo_scene []) =
  (mkWorld {[ state_path := Directory ]} demo_scene [], Raised IsADirectoryError).
Proof.
  apply (restore_directory_at_path demo_decode
           (mkWorld {[ state_path := Directory ]} demo_scene [])).
  vm_compute. reflexivity.
Defined.

(** X2 on a state file that holds a list. *)
Lemma restore_not_an_object_witness :
  restore_assembled_state demo_decode (world_with "[]") =
  (world_with "[]", Raised AttributeError).
Proof.
  apply (restore_not_an_object demo_decode (world_with "[]") "[]" (JArray [])).
  - vm_compute. reflexivity.
  - vm_compute. reflexivity.
  - intros members Heq. discriminate Heq.
Defined.

(** X3 on the scene with the camera alone: the lamp's three names are unknown. *)
Lemma restore_no_match_witness :
  restore_assembled_state demo_decode (camera_world lamp_text) =
  (camera_world lamp_text, Returned tt).
Proof.
  apply (restore_no_match demo_decode (camera_world lamp_text) lamp_state).
  - vm_compute. reflexivity.
  - intros name Hin.
    repeat (apply elem_of_cons in Hin as [->|Hin]; [vm_compute; reflexivity|]).
    by apply elem_of_nil in Hin.
Defined.

(** X4 on the lamp whose second record has nothing but a location. *)
Lemma restore_stops_at_ill_shaped_witness :
  restore_assembled_state edge_decode (world_with broken_lamp_text) =
    for_each (obj1_state ++ [("Obj2", location_only)]) restore_entry
      (world_with broken_lamp_text) /\
  exists e,
    (restore_assembled_state edge_decode (world_with broken_lamp_text)).2 = Raised e.
Proof.
  apply (restore_stops_at_ill_shaped edge_decode (world_with broken_lamp_text)
           obj1_state [camera_entry] "Obj2" location_only).
  - vm_compute. reflexivity.
  - exists obj2_before. vm_compute. reflexivity.
  - vm_compute. reflexivity.
Defined.

(** X5 on the same lamp: Obj2 is moved and keeps its rotation and scale. *)
Lemma restore_partial_assignment_witness :
  (restore_assembled_state edge_decode (world_with broken_lamp_text)).2 =
    Raised (KeyError "rotation_euler") /\
  bpy_data_objects (restore_assembled_state edge_decode (world_with broken_lamp_text)).1
    !! "Obj2" =
    Some (mkSceneObject (0, 0, 5)%Z (rotation_euler obj2_before) (scale obj2_before)
            (host_data obj2_before)).
Proof.
  apply (restore_partial_assignment edge_decode (world_with broken_lamp_text)
           obj1_state [camera_entry] "Obj2" location_only).
  - vm_compute. reflexivity.
  - intros n t Hin _. apply list_elem_of_singleton in Hin. by injection Hin as -> ->.
  - vm_compute. reflexivity.
  - vm_compute. reflexivity.
  - vm_compute. reflexivity.
Defined.

(** X6 on the document that names Obj1 twice: the second record is the one
    Obj1 ends with. *)
Lemma restore_repeated_name_witness :
  (restore_assembled_state edge_decode (world_with repeated_text)).2 = Returned tt /\
  exists o,
    bpy_data_objects (restore_assembled_state edge_decode (world_with repeated_text)).1
      !! "Obj1" = Some o /\
    Some (4, 4, 4)%Z = Some (location o) /\
    Some (0, 1, 0)%Z = Some (rotation_euler o) /\
    Some (3, 3, 3)%Z = Some (scale o).
Proof.
  apply (restore_repeated_name edge_decode (world_with repeated_text) repeated_text
           repeated_members "Obj1"
           (record (triple 4 4 4) (triple 0 1 0) (triple 3 3 3))).
  - vm_compute. reflexivity.
  - vm_compute. reflexivity.
  - intros n j' Hget _. cbn in Hget.
    destruct (decide ("Obj1" = n)); [by injection Hget as <-|].
    destruct (decide ("Obj2" = n)); [by injection Hget as <-|].
    discriminate Hget.
  - vm_compute. reflexivity.
  - exists obj1_before. vm_compute. reflexivity.
Defined.

(** X7 on a record that also carries the object's name. *)
Lemma restore_entry_extra_key_witness :
  restore_entry
    ("Obj1", PyDict (dict_setitem [("location", py_triple 1 2 3)] "name" (PyStr "Obj1")))
    (world_with obj1_text) =
  restore_entry ("Obj1", PyDict [("location", py_triple 1 2 3)]) (world_with obj1_text).
Proof.
  apply (restore_entry_extra_key "Obj1" [("location", py_triple 1 2 3)] "name"
           (PyStr "Obj1") (world_with obj1_text)).
  intros Hin.
  repeat (apply elem_of_cons in Hin as [Hin|Hin]; [discriminate Hin|]).
  by apply elem_of_nil in Hin.
Defined.

(** X8 on the three-entry state. *)
Lemma restore_reports_distinct_witness :
  exists printed,
    stdout (restore_assembled_state demo_decode (world_with lamp_text)).1 =
      stdout (world_with lamp_text) ++ printed /\
    NoDup printed /\
    forall line,
      line ∈ printed ->
      exists name,
        line = restored_line name /\ name ∈ lamp_state.*1 /\
        is_Some (bpy_data_objects (world_with lamp_text) !! name).
Proof.
  apply (restore_reports_distinct demo_decode (world_with lamp_text) lamp_state).
  vm_compute. reflexivity.
Defined.

(** X9 on the three-entry state and the same entries in the opposite order. *)
Lemma restore_order_irrelevant_witness :
  (restore_assembled_state edge_decode (world_with lamp_text)).2 = Returned tt /\
  (restore_assembled_state edge_decode (world_with swapped_lamp_text)).2 = Returned tt /\
  bpy_data_objects (restore_assembled_state edge_decode (world_with lamp_text)).1 =
    bpy_data_objects (restore_assembled_state edge_decode (world_with swapped_lamp_text)).1.
Proof.
  apply (restore_order_irrelevant edge_decode (world_with lamp_text)
           (world_with swapped_lamp_text) lamp_state (reverse lamp_state)).
  - vm_compute. reflexivity.
  - vm_compute. reflexivity.
  - reflexivity.
  - symmetry. apply reverse_Permutation.
  - intros name transforms Hin Hknown.
    apply elem_of_cons in Hin as [Hin|Hin]; [by injection Hin as -> ->|].
    apply elem_of_cons in Hin as [Hin|Hin].
    { injection Hin as -> ->. destruct Hknown as [o Ho]. vm_compute in Ho. done. }
    apply list_elem_of_singleton in Hin. by injection Hin as -> ->.
Defined.

(** X10 on the lamp whose second record is empty. *)
Lemma restore_fails_on_location_witness :
  (restore_assembled_state edge_decode (world_with unlocated_lamp_text)).2 =
    Raised (KeyError "location") /\
  bpy_data_objects (restore_assembled_state edge_decode (world_with unlocated_lamp_text)).1
    !! "Obj2" = Some obj2_before /\
  stdout (restore_assembled_state edge_decode (world_with unlocated_lamp_text)).1 =
    stdout (world_with unlocated_lamp_text) ++
    (restored_line <$>
       filter (.∈ dom (bpy_data_objects (world_with unlocated_lamp_text))) obj1_state.*1).
Proof.
  apply (restore_fails_on_location edge_decode (world_with unlocated_lamp_text)
           obj1_state [camera_entry] "Obj2" (PyDict [])).
  - vm_compute. reflexivity.
  - intros n t Hin _. apply list_elem_of_singleton in Hin. by injection Hin as -> ->.
  - vm_compute. reflexivity.
  - vm_compute. reflexivity.
Defined.

(** X11 on the lamp whose second record has nothing but a location: the
    camera, named after it, stays where it was. *)
Lemma restore_leaves_later_entries_witness :
  bpy_data_objects (restore_assembled_state edge_decode (world_with broken_lamp_text)).1
    !! "Camera" =
  bpy_data_objects (world_with broken_lamp_text) !! "Camera".
Proof.
  apply (restore_leaves_later_entries edge_decode (world_with broken_lamp_text)
           obj1_state [camera_entry] "Obj2" "Camera" location_only).
  - vm_compute. reflexivity.
  - exists obj2_before. vm_compute. reflexivity.
  - vm_compute. reflexivity.
  - intros Hin. apply list_elem_of_singleton in Hin. discriminate Hin.
  - discriminate.
Defined.
